(** * HTTPUpload (common/windows/http_upload.cc)

    A shallow embedding of the multipart/form-data uploader of
    [google_airbag::HTTPUpload] and the properties of its validation,
    boundary generation, body construction and call sequence.

    Conventions.
    - [wchar_t] is the 16-bit code unit of the Windows ABI, carried as a [Z];
      a [wstring] is the list of its code units (no terminator stored).
    - [std::string] and [vector<char>] are lists of bytes.
    - [map<wstring, wstring>] is the list of its (key, value) pairs in
      iteration order; the statements hold for every such list, sorted and
      free of duplicate keys or not.
    - The WinINet/CRT/file-system services the code calls are the fields of
      the record [Win32]; every call the code makes is logged in a trace. *)

From Stdlib Require Import ZArith List Bool Lia String Ascii.
From Stdlib Require Import Strings.Byte.
Import ListNotations.

#[local] Open Scope Z_scope.

(** ** Strings *)

Module Str.

Definition wchar_t := Z.
Definition wstring := list wchar_t.
Definition char := byte.
Definition string := list char.

(** Narrow string literal. *)
Definition s (lit : String.string) : string := list_byte_of_string lit.

Definition wchar_of_byte (b : byte) : wchar_t := Z.of_N (Byte.to_N b).

(** Wide string literal, [L"..."]. *)
Definition L (lit : String.string) : wstring := map wchar_of_byte (s lit).

Definition CRLF : string := [x0d; x0a].
Definition DQUOTE : string := [x22].

(** [wide.c_str()] read as a NUL-terminated string: the code units before
    the first NUL. *)
Fixpoint c_str (w : wstring) : wstring :=
  match w with
  | [] => []
  | c :: w' => if c =? 0 then [] else c :: c_str w'
  end.

Definition is_nul (b : char) : bool :=
  match b with x00 => true | _ => false end.

(** [std::string(const char* )]: the bytes before the first NUL. *)
Fixpoint string_of_buf (buf : list char) : string :=
  match buf with
  | [] => []
  | b :: buf' => if is_nul b then [] else b :: string_of_buf buf'
  end.

(** [wcscmp] on NUL-terminated wide strings; the end of the list counts as
    the terminator. *)
Fixpoint wcscmp (a b : wstring) : Z :=
  match a, b with
  | [], [] => 0
  | [], y :: _ => if y =? 0 then 0 else -1
  | x :: _, [] => if x =? 0 then 0 else 1
  | x :: a', y :: b' =>
      if x =? y then (if x =? 0 then 0 else wcscmp a' b')
      else if x <? y then -1 else 1
  end.

End Str.
Import Str.

(** ** Parameter validation *)

(** The inner loop of [CheckParameters]: [true] when no character of the
    key is rejected. *)
Fixpoint check_chars (str : wstring) : bool :=
  match str with
  | [] => true
  | c :: rest =>
      if (c <? 32) || (c =? 34) || (c >? 127) then false
      else check_chars rest
  end.

(** [HTTPUpload::CheckParameters]. *)
Fixpoint CheckParameters (parameters : list (wstring * wstring)) : bool :=
  match parameters with
  | [] => true
  | (str, _) :: rest =>
      if (Z.of_nat (List.length str) =? 0) then false
      else if negb (check_chars str) then false
      else CheckParameters rest
  end.

(** ** The platform: WinINet, the C runtime and the file system *)

Definition HINTERNET := Z.
Definition DWORD := Z.
Definition NULL : HINTERNET := 0.

(** Constants of [wininet.h]. *)
Definition INTERNET_OPEN_TYPE_PRECONFIG : DWORD := 0.
Definition INTERNET_SERVICE_HTTP : DWORD := 3.
Definition INTERNET_FLAG_SECURE : DWORD := 0x00800000.
Definition HTTP_ADDREQ_FLAG_ADD : DWORD := 0x20000000.
Definition HTTP_QUERY_STATUS_CODE : DWORD := 19.

Definition kUserAgent : wstring := L "Airbag/1.0 (Windows)".

(** The fields of [URL_COMPONENTS] that [InternetCrackUrl] fills in and
    [SendRequest] reads. *)
Record URL_COMPONENTS := {
  lpszScheme : wstring;
  lpszHostName : wstring;
  nPort : Z;
  lpszUrlPath : wstring
}.

(** The answers of the services [HTTPUpload] calls.  A handle is [NULL] on
    failure; [InternetCrackUrl] and [HttpQueryInfo] answer [None] when they
    return [FALSE].  [WideCharToMultiByte] is the call with [CP_UTF8] on a
    NUL-terminated input: the bytes it writes (terminator included), empty
    when it returns 0.  [rand] steps the generator state.  [ifstream_open]
    is the content of the file when it can be opened. *)
Record Win32 := {
  InternetCrackUrl : wstring -> option URL_COMPONENTS;
  InternetOpen : wstring -> DWORD -> HINTERNET;
  InternetConnect : HINTERNET -> wstring -> Z -> DWORD -> HINTERNET;
  HttpOpenRequest : HINTERNET -> wstring -> wstring -> DWORD -> HINTERNET;
  HttpAddRequestHeaders : HINTERNET -> wstring -> DWORD -> bool;
  HttpSendRequest : HINTERNET -> string -> bool;
  HttpQueryInfo : HINTERNET -> DWORD -> DWORD -> option wstring;
  rand : Z -> Z * Z;
  WideCharToMultiByte : wstring -> list char;
  ifstream_open : wstring -> option (list char)
}.

(** One entry per call that leaves the process. *)
Inductive Event :=
| CallInternetCrackUrl (url : wstring)
| CallInternetOpen (agent : wstring)
| CallInternetConnect (internet : HINTERNET) (host : wstring) (port : Z)
| CallHttpOpenRequest (connection : HINTERNET) (verb path : wstring)
                      (flags : DWORD)
| CallHttpAddRequestHeaders (request : HINTERNET) (header : wstring)
| CallHttpSendRequest (request : HINTERNET) (body : string)
| CallHttpQueryInfo (request : HINTERNET)
| CallInternetCloseHandle (handle : HINTERNET)
| CallRand
| CallOpenFile (filename : wstring).

(** The state threaded through a call: the calls made so far, oldest first,
    and the state of the C runtime's random generator. *)
Record World := { trace : list Event; holdrand : Z }.

Definition M (A : Type) := World -> A * World.

Definition ret {A} (a : A) : M A := fun w => (a, w).
Definition bind {A B} (m : M A) (k : A -> M B) : M B :=
  fun w => let (a, w') := m w in k a w'.
Definition emit (e : Event) : M unit :=
  fun w => (tt, {| trace := trace w ++ [e]; holdrand := holdrand w |}).

Notation "x <- m ;; k" := (bind m (fun x => k))
  (at level 61, m at next level, right associativity).
Notation "m ;;; k" := (bind m (fun _ => k))
  (at level 61, right associativity).

(** The value a call returns, and the calls it made from a fresh trace. *)
Definition result {A} (m : M A) (seed : Z) : A :=
  fst (m {| trace := []; holdrand := seed |}).
Definition calls {A} (m : M A) (seed : Z) : list Event :=
  trace (snd (m {| trace := []; holdrand := seed |})).

(** [AutoInternetHandle]: the handle is closed, when it is not null, as the
    enclosing scope is left. *)
Definition AutoInternetHandle {A} (handle : HINTERNET) (scope : M A) : M A :=
  r <- scope ;;
  (if handle =? NULL then ret tt else emit (CallInternetCloseHandle handle)) ;;;
  ret r.

Definition call_rand (os : Win32) : M Z :=
  emit CallRand ;;;
  fun w => let (r, seed) := rand os (holdrand w) in
           (r, {| trace := trace w; holdrand := seed |}).

(** ** Boundary and header *)

Definition kBoundaryPrefix : wstring := L "---------------------------".
Definition kBoundaryLength : Z := 27 + 16 + 1.

Definition hex_digit (d : Z) : wchar_t :=
  if d <? 10 then 48 + d else 65 + (d - 10).

(** The hexadecimal digits of [v], least significant first, at least one. *)
Fixpoint hex_rev (fuel : nat) (v : Z) : wstring :=
  match fuel with
  | O => []
  | S fuel' =>
      hex_digit (v mod 16) ::
      (if v / 16 =? 0 then [] else hex_rev fuel' (v / 16))
  end.

(** The [int] argument of [%X] read as an [unsigned int]. *)
Definition as_unsigned (v : Z) : Z := v mod 2 ^ 32.

(** [%08X]: upper-case hexadecimal, padded with zeros to eight columns. *)
Definition fmt_08X (v : Z) : wstring :=
  let digits := rev (hex_rev 8 (as_unsigned v)) in
  repeat 48 (8 - List.length digits) ++ digits.

(** [swprintf_s(temp, size, L"%s%08X%08X", ...)]: the buffer holds the output
    when it fits with its terminator, and the empty string otherwise. *)
Definition swprintf_s (size : Z) (prefix : wstring) (r0 r1 : Z) : wstring :=
  let out := c_str prefix ++ fmt_08X r0 ++ fmt_08X r1 in
  if Z.of_nat (List.length out) <? size then out else [].

(** [HTTPUpload::GenerateMultipartBoundary]. *)
Definition GenerateMultipartBoundary (os : Win32) : M wstring :=
  r0 <- call_rand os ;;
  r1 <- call_rand os ;;
  let temp := swprintf_s kBoundaryLength kBoundaryPrefix r0 r1 in
  ret (c_str temp).

(** [HTTPUpload::GenerateRequestHeader]. *)
Definition GenerateRequestHeader (boundary : wstring) : wstring :=
  let header := L "Content-Type: multipart/form-data; boundary=" in
  header ++ boundary.

(** ** Reading the file and transcoding *)

(** [HTTPUpload::GetFileContents], on the fresh vector of its caller. *)
Definition GetFileContents (os : Win32) (filename : wstring) : M (list char) :=
  emit (CallOpenFile (c_str filename)) ;;;
  match ifstream_open os (c_str filename) with
  | Some bytes => ret bytes
  | None => ret []
  end.

(** [HTTPUpload::WideToUTF8]. *)
Definition WideToUTF8 (os : Win32) (wide : wstring) : string :=
  if Z.of_nat (List.length wide) =? 0 then []
  else
    let buf := WideCharToMultiByte os (c_str wide) in
    let charcount := Z.of_nat (List.length buf) in
    if charcount =? 0 then [] else string_of_buf buf.

Definition empty {A} (v : list A) : bool :=
  match v with [] => true | _ => false end.

(** ** Body construction *)

(** One turn of the loop over the parameters. *)
Definition append_parameter (os : Win32) (boundary_str : string)
    (request_body : string) (pos : wstring * wstring) : string :=
  let request_body := request_body ++ (s "--" ++ boundary_str ++ CRLF) in
  request_body ++
    (s "Content-Disposition: form-data; name=" ++ DQUOTE ++
     WideToUTF8 os (fst pos) ++ DQUOTE ++ CRLF ++ CRLF ++
     WideToUTF8 os (snd pos) ++ CRLF).

(** [HTTPUpload::GenerateRequestBody].  [request_body] is the string the
    caller's pointer refers to on entry; the result pairs the returned flag
    with that string on exit. *)
Definition GenerateRequestBody (os : Win32)
    (parameters : list (wstring * wstring))
    (upload_file file_part_name boundary : wstring)
    (request_body : string) : M (bool * string) :=
  contents <- GetFileContents os upload_file ;;
  if empty contents then ret (false, request_body)
  else
    let boundary_str := WideToUTF8 os boundary in
    if empty boundary_str then ret (false, request_body)
    else
      let request_body : string := [] in
      let request_body :=
        fold_left (append_parameter os boundary_str) parameters request_body in
      let filename_utf8 := WideToUTF8 os upload_file in
      if empty filename_utf8 then ret (false, request_body)
      else
        let file_part_name_utf8 := WideToUTF8 os file_part_name in
        if empty file_part_name_utf8 then ret (false, request_body)
        else
          let request_body :=
            request_body ++ (s "--" ++ boundary_str ++ CRLF) in
          let request_body :=
            request_body ++
              (s "Content-Disposition: form-data; " ++
               s "name=" ++ DQUOTE ++ file_part_name_utf8 ++ DQUOTE ++ s "; " ++
               s "filename=" ++ DQUOTE ++ filename_utf8 ++ DQUOTE ++ CRLF) in
          let request_body :=
            request_body ++
              (s "Content-Type: application/octet-stream" ++ CRLF) in
          let request_body := request_body ++ CRLF in
          let request_body := request_body ++ contents in
          let request_body := request_body ++ CRLF in
          let request_body :=
            request_body ++ (s "--" ++ boundary_str ++ s "--" ++ CRLF) in
          ret (true, request_body).

(** ** The call sequence *)

Definition call_InternetCrackUrl (os : Win32) (url : wstring)
  : M (option URL_COMPONENTS) :=
  emit (CallInternetCrackUrl url) ;;; ret (InternetCrackUrl os url).

Definition call_InternetOpen (os : Win32) (agent : wstring) (access : DWORD)
  : M HINTERNET :=
  emit (CallInternetOpen agent) ;;; ret (InternetOpen os agent access).

Definition call_InternetConnect (os : Win32) (internet : HINTERNET)
    (host : wstring) (port : Z) (service : DWORD) : M HINTERNET :=
  emit (CallInternetConnect internet host port) ;;;
  ret (InternetConnect os internet host port service).

Definition call_HttpOpenRequest (os : Win32) (connection : HINTERNET)
    (verb path : wstring) (flags : DWORD) : M HINTERNET :=
  emit (CallHttpOpenRequest connection verb path flags) ;;;
  ret (HttpOpenRequest os connection verb path flags).

Definition call_HttpAddRequestHeaders (os : Win32) (request : HINTERNET)
    (header : wstring) (modifiers : DWORD) : M bool :=
  emit (CallHttpAddRequestHeaders request header) ;;;
  ret (HttpAddRequestHeaders os request header modifiers).

Definition call_HttpSendRequest (os : Win32) (request : HINTERNET)
    (body : string) : M bool :=
  emit (CallHttpSendRequest request body) ;;;
  ret (HttpSendRequest os request body).

Definition call_HttpQueryInfo (os : Win32) (request : HINTERNET)
    (level size : DWORD) : M (option wstring) :=
  emit (CallHttpQueryInfo request) ;;;
  ret (HttpQueryInfo os request level size).

(** [sizeof(http_status)], four [wchar_t]. *)
Definition http_status_size : DWORD := 4 * 2.

(** [HTTPUpload::SendRequest], from the point where the scheme has been
    accepted and [secure] decided. *)
Definition SendRequest_open (os : Win32) (components : URL_COMPONENTS)
    (secure : bool) (parameters : list (wstring * wstring))
    (upload_file file_part_name : wstring) : M bool :=
  internet <- call_InternetOpen os kUserAgent INTERNET_OPEN_TYPE_PRECONFIG ;;
  AutoInternetHandle internet (
  if internet =? NULL then ret false
  else
    connection <- call_InternetConnect os internet (lpszHostName components)
                    (nPort components) INTERNET_SERVICE_HTTP ;;
    AutoInternetHandle connection (
    if connection =? NULL then ret false
    else
      let http_open_flags := if secure then INTERNET_FLAG_SECURE else 0 in
      request <- call_HttpOpenRequest os connection (L "POST")
                   (lpszUrlPath components) http_open_flags ;;
      AutoInternetHandle request (
      if request =? NULL then ret false
      else
        boundary <- GenerateMultipartBoundary os ;;
        let content_type_header := GenerateRequestHeader boundary in
        call_HttpAddRequestHeaders os request (c_str content_type_header)
          HTTP_ADDREQ_FLAG_ADD ;;;
        let request_body : string := [] in
        generated <- GenerateRequestBody os parameters upload_file
                       file_part_name boundary request_body ;;
        let request_body := snd generated in
        sent <- call_HttpSendRequest os request request_body ;;
        if negb sent then ret false
        else
          http_status <- call_HttpQueryInfo os request HTTP_QUERY_STATUS_CODE
                           http_status_size ;;
          match http_status with
          | None => ret false
          | Some http_status => ret (wcscmp http_status (L "200") =? 0)
          end))).

(** [HTTPUpload::SendRequest]. *)
Definition SendRequest (os : Win32) (url : wstring)
    (parameters : list (wstring * wstring))
    (upload_file file_part_name : wstring) : M bool :=
  if negb (CheckParameters parameters) then ret false
  else
    components <- call_InternetCrackUrl os url ;;
    match components with
    | None => ret false
    | Some components =>
        let scheme := lpszScheme components in
        if wcscmp scheme (L "https") =? 0 then
          SendRequest_open os components true
            parameters upload_file file_part_name
        else if negb (wcscmp scheme (L "http") =? 0) then ret false
        else
          SendRequest_open os components false
            parameters upload_file file_part_name
    end.

(** ** A concrete platform

    A stand-in for the services, used to run the code on concrete inputs:
    a splitting URL parser, handles 1, 2, 3, the linear congruential [rand]
    of the Microsoft C runtime, a UTF-16 to UTF-8 encoder and a file table. *)

Module Desk.

Fixpoint wstring_eqb (a b : wstring) : bool :=
  match a, b with
  | [], [] => true
  | x :: a', y :: b' => (x =? y) && wstring_eqb a' b'
  | _, _ => false
  end.

Fixpoint lookup {V} (k : wstring) (table : list (wstring * V)) : option V :=
  match table with
  | [] => None
  | (k', v) :: rest => if wstring_eqb k k' then Some v else lookup k rest
  end.

Fixpoint take_until (stop : wchar_t) (w : wstring) : wstring :=
  match w with
  | [] => []
  | c :: w' => if c =? stop then [] else c :: take_until stop w'
  end.

Fixpoint drop_until (stop : wchar_t) (w : wstring) : option wstring :=
  match w with
  | [] => None
  | c :: w' => if c =? stop then Some w' else drop_until stop w'
  end.

(** [scheme://host/path], default ports. *)
Definition crack (url : wstring) : option URL_COMPONENTS :=
  match drop_until 58 url with
  | Some (47 :: 47 :: rest) =>
      let scheme := take_until 58 url in
      let host := take_until 47 rest in
      Some {| lpszScheme := scheme;
              lpszHostName := host;
              nPort := if wstring_eqb scheme (L "https") then 443 else 80;
              lpszUrlPath := skipn (List.length host) rest |}
  | _ => None
  end.

Definition byte_of_Z (z : Z) : byte :=
  match Byte.of_N (Z.to_N z) with Some b => b | None => x00 end.

Definition utf8_of_code_point (u : Z) : list byte :=
  if u <? 0x80 then [byte_of_Z u]
  else if u <? 0x800 then
    [byte_of_Z (0xC0 + u / 64); byte_of_Z (0x80 + u mod 64)]
  else if u <? 0x10000 then
    [byte_of_Z (0xE0 + u / 4096); byte_of_Z (0x80 + (u / 64) mod 64);
     byte_of_Z (0x80 + u mod 64)]
  else
    [byte_of_Z (0xF0 + u / 262144); byte_of_Z (0x80 + (u / 4096) mod 64);
     byte_of_Z (0x80 + (u / 64) mod 64); byte_of_Z (0x80 + u mod 64)].

Definition high_surrogate (c : wchar_t) : bool := (0xD800 <=? c) && (c <=? 0xDBFF).
Definition low_surrogate (c : wchar_t) : bool := (0xDC00 <=? c) && (c <=? 0xDFFF).

(** Unpaired surrogates become U+FFFD. *)
Fixpoint utf8_of_utf16 (w : wstring) : list byte :=
  match w with
  | [] => []
  | c :: rest =>
      if high_surrogate c then
        match rest with
        | lo :: rest' =>
            if low_surrogate lo then
              utf8_of_code_point (0x10000 + (c - 0xD800) * 1024 + (lo - 0xDC00))
                ++ utf8_of_utf16 rest'
            else utf8_of_code_point 0xFFFD ++ utf8_of_utf16 rest
        | [] => utf8_of_code_point 0xFFFD
        end
      else if low_surrogate c then
        utf8_of_code_point 0xFFFD ++ utf8_of_utf16 rest
      else utf8_of_code_point c ++ utf8_of_utf16 rest
  end.

Definition msvc_rand (seed : Z) : Z * Z :=
  let seed' := (seed * 214013 + 2531011) mod 2 ^ 32 in
  (Z.land (Z.shiftr seed' 16) 0x7fff, seed').

(** The platform with the given files, where every handle opens, the header
    is added or not as [header_added] says, the send succeeds and the server
    answers [status]. *)
Definition platform (files : list (wstring * list char))
    (header_added : bool) (status : option wstring) : Win32 :=
  {| InternetCrackUrl := crack;
     InternetOpen := fun _ _ => 1;
     InternetConnect := fun _ _ _ _ => 2;
     HttpOpenRequest := fun _ _ _ _ => 3;
     HttpAddRequestHeaders := fun _ _ _ => header_added;
     HttpSendRequest := fun _ _ => true;
     HttpQueryInfo := fun _ _ _ => status;
     rand := msvc_rand;
     WideCharToMultiByte := fun w => utf8_of_utf16 w ++ [x00];
     ifstream_open := fun name => lookup name files |}.

Definition dump : wstring := L "C:\dumps\a.dmp".
Definition files : list (wstring * list char) :=
  [(dump, s "DATA"); (L "C:\dumps\empty.dmp", [])].
Definition url : wstring := L "https://crash.example.org/submit".
Definition os : Win32 := platform files true (Some (L "200")).

End Desk.

(** ** Vocabulary of the statements *)

(** A character [CheckParameters] rejects. *)
Definition bad_char (c : wchar_t) : Prop := c < 32 \/ 127 < c \/ c = 34.

(** A key is acceptable when it is not empty and each of its characters has
    a code point from 32 to 127 other than the double quote. *)
Definition good_key (k : wstring) : Prop :=
  k <> [] /\ Forall (fun c => 32 <= c <= 127 /\ c <> 34) k.

(** A key is rejected when it is empty or holds a rejected character. *)
Definition bad_key (k : wstring) : Prop := k = [] \/ Exists bad_char k.

(** A world in which nothing has been called yet. *)
Definition fresh : World := {| trace := []; holdrand := 0 |}.

(** The world [w] after the calls [es]. *)
Definition logged (w : World) (es : list Event) : World :=
  {| trace := trace w ++ es; holdrand := holdrand w |}.

(** The calls that close the handles [hs], in that order. *)
Definition closes (hs : list HINTERNET) : list Event :=
  map CallInternetCloseHandle hs.

(** The platform [os] with another answer to [HttpAddRequestHeaders]. *)
Definition with_HttpAddRequestHeaders (os : Win32)
    (answer : HINTERNET -> wstring -> DWORD -> bool) : Win32 :=
  {| InternetCrackUrl := InternetCrackUrl os;
     InternetOpen := InternetOpen os;
     InternetConnect := InternetConnect os;
     HttpOpenRequest := HttpOpenRequest os;
     HttpAddRequestHeaders := answer;
     HttpSendRequest := HttpSendRequest os;
     HttpQueryInfo := HttpQueryInfo os;
     rand := rand os;
     WideCharToMultiByte := WideCharToMultiByte os;
     ifstream_open := ifstream_open os |}.

(** The form-data part of one parameter. *)
Definition form_data_part (os : Win32) (boundary_str : string)
    (pos : wstring * wstring) : string :=
  s "--" ++ boundary_str ++ CRLF ++
  s "Content-Disposition: form-data; name=" ++ DQUOTE ++
  WideToUTF8 os (fst pos) ++ DQUOTE ++ CRLF ++ CRLF ++
  WideToUTF8 os (snd pos) ++ CRLF.

(** The octet-stream part of the file and the closing delimiter. *)
Definition file_part (boundary_str name filename : string)
    (contents : list char) : string :=
  s "--" ++ boundary_str ++ CRLF ++
  s "Content-Disposition: form-data; name=" ++ DQUOTE ++ name ++ DQUOTE ++
  s "; filename=" ++ DQUOTE ++ filename ++ DQUOTE ++ CRLF ++
  s "Content-Type: application/octet-stream" ++ CRLF ++ CRLF ++
  contents ++ CRLF ++
  s "--" ++ boundary_str ++ s "--" ++ CRLF.

(** An upper-case hexadecimal digit, ['0'..'9'] or ['A'..'F']. *)
Definition upper_hex_digit (c : wchar_t) : Prop :=
  48 <= c <= 57 \/ 65 <= c <= 70.

(** The value of one hexadecimal digit. *)
Definition hex_digit_value (c : wchar_t) : Z :=
  if c <? 65 then c - 48 else c - 65 + 10.

(** The number a string of hexadecimal digits denotes, most significant
    digit first. *)
Definition hex_value (digits : wstring) : Z :=
  fold_left (fun acc c => 16 * acc + hex_digit_value c) digits 0.

(** The same, least significant digit first. *)
Fixpoint hex_value_rev (digits : wstring) : Z :=
  match digits with
  | [] => 0
  | c :: rest => hex_digit_value c + 16 * hex_value_rev rest
  end.

(** The handle a call hands back, when it is one that has to be closed. *)
Definition acquired (os : Win32) (e : Event) : list HINTERNET :=
  let nonnull (h : HINTERNET) := if h =? NULL then [] else [h] in
  match e with
  | CallInternetOpen agent =>
      nonnull (InternetOpen os agent INTERNET_OPEN_TYPE_PRECONFIG)
  | CallInternetConnect internet host port =>
      nonnull (InternetConnect os internet host port INTERNET_SERVICE_HTTP)
  | CallHttpOpenRequest connection verb path flags =>
      nonnull (HttpOpenRequest os connection verb path flags)
  | _ => []
  end.

Definition is_close (e : Event) : bool :=
  match e with CallInternetCloseHandle _ => true | _ => false end.

Definition is_send (e : Event) : bool :=
  match e with CallHttpSendRequest _ _ => true | _ => false end.

Definition is_query (e : Event) : bool :=
  match e with CallHttpQueryInfo _ => true | _ => false end.

Definition is_open_file (e : Event) : bool :=
  match e with CallOpenFile _ => true | _ => false end.

(** The handle a call is made on. *)
Definition handle_used (e : Event) : option HINTERNET :=
  match e with
  | CallInternetConnect internet _ _ => Some internet
  | CallHttpOpenRequest connection _ _ _ => Some connection
  | CallHttpAddRequestHeaders request _ => Some request
  | CallHttpSendRequest request _ => Some request
  | CallHttpQueryInfo request => Some request
  | CallInternetCloseHandle handle => Some handle
  | _ => None
  end.

(** The platform [os] with another answer to [HttpSendRequest]. *)
Definition with_HttpSendRequest (os : Win32)
    (answer : HINTERNET -> string -> bool) : Win32 :=
  {| InternetCrackUrl := InternetCrackUrl os;
     InternetOpen := InternetOpen os;
     InternetConnect := InternetConnect os;
     HttpOpenRequest := HttpOpenRequest os;
     HttpAddRequestHeaders := HttpAddRequestHeaders os;
     HttpSendRequest := answer;
     HttpQueryInfo := HttpQueryInfo os;
     rand := rand os;
     WideCharToMultiByte := WideCharToMultiByte os;
     ifstream_open := ifstream_open os |}.

(** The calls that crack the URL, obtain a handle or close one. *)
Definition is_setup (e : Event) : bool :=
  match e with
  | CallInternetCrackUrl _ | CallInternetOpen _ | CallInternetConnect _ _ _
  | CallHttpOpenRequest _ _ _ _ | CallInternetCloseHandle _ => true
  | _ => false
  end.

(** * Properties *)

(** ** NUL-terminated strings *)

Section CStrings.

Lemma c_str_no_nul (w : wstring) :
  Forall (fun c => c <> 0) w -> c_str w = w.
Proof.
  induction 1 as [|c w Hc _ IH]; simpl; [reflexivity|].
  destruct (Z.eqb_spec c 0); [contradiction|].
  now rewrite IH.
Qed.

Lemma c_str_idempotent (w : wstring) : c_str (c_str w) = c_str w.
Proof.
  induction w as [|c w IH]; simpl; [reflexivity|].
  destruct (Z.eqb_spec c 0) as [E|E]; simpl; [reflexivity|].
  destruct (Z.eqb_spec c 0); [contradiction|].
  now rewrite IH.
Qed.

(** [wcscmp] answers 0 exactly on equal NUL-terminated strings. *)
Lemma wcscmp_eq (a b : wstring) : wcscmp a b = 0 <-> c_str a = c_str b.
Proof.
  revert b; induction a as [|x a IH]; intros [|y b]; simpl.
  - tauto.
  - destruct (Z.eqb_spec y 0); split; intro H; try reflexivity; discriminate.
  - destruct (Z.eqb_spec x 0); split; intro H; try reflexivity; discriminate.
  - destruct (Z.eqb_spec x y) as [->|Hxy].
    + destruct (Z.eqb_spec y 0); [tauto|].
      rewrite IH. split; intro H; [now rewrite H | now injection H].
    + destruct (Z.ltb_spec x y);
        (split; [discriminate|]);
        destruct (Z.eqb_spec x 0), (Z.eqb_spec y 0); intro E;
        try discriminate; try (injection E; intros); lia.
Qed.

Lemma wcscmp_eqb (a b : wstring) :
  (wcscmp a b =? 0) = true <-> c_str a = c_str b.
Proof. rewrite Z.eqb_eq. apply wcscmp_eq. Qed.

End CStrings.

(** ** Validation *)

Lemma check_chars_true (k : wstring) :
  check_chars k = true <-> Forall (fun c => 32 <= c <= 127 /\ c <> 34) k.
Proof.
  induction k as [|c k IH]; simpl.
  - split; [constructor | reflexivity].
  - destruct (Z.ltb_spec c 32), (Z.eqb_spec c 34), (Z.gtb_spec c 127); simpl;
      try (split; [discriminate | inversion 1; lia]).
    rewrite IH. split.
    + intro H'. constructor; [lia | exact H'].
    + now inversion 1.
Qed.

Lemma check_chars_false (k : wstring) :
  check_chars k = false <-> Exists bad_char k.
Proof.
  induction k as [|c k IH]; simpl.
  - split; [discriminate | inversion 1].
  - unfold bad_char at 1.
    destruct (Z.ltb_spec c 32), (Z.eqb_spec c 34), (Z.gtb_spec c 127); simpl;
      try (split; [intros _; left; lia | reflexivity]).
    rewrite IH. split.
    + now right.
    + inversion 1 as [? ? Hb|]; [destruct Hb as [|[|]]; lia | assumption].
Qed.

Lemma good_key_dec (k : wstring) :
  (Z.of_nat (List.length k) =? 0) = false /\ check_chars k = true <-> good_key k.
Proof.
  unfold good_key. rewrite check_chars_true.
  destruct k; simpl; split; intros [H1 H2]; easy.
Qed.

Lemma bad_key_not_good (k : wstring) : bad_key k <-> ~ good_key k.
Proof.
  unfold bad_key. rewrite <- check_chars_false, <- good_key_dec.
  destruct k as [|c k]; [simpl; intuition discriminate |].
  destruct (check_chars (c :: k)).
  - split; [intros [|]; discriminate | intros H; exfalso; apply H; now split].
  - split; [intros _ [_ H]; discriminate | now right].
Qed.

Lemma CheckParameters_true (p : list (wstring * wstring)) :
  CheckParameters p = true <-> Forall (fun kv => good_key (fst kv)) p.
Proof.
  induction p as [|[k v] p IH]; simpl.
  - split; [constructor | reflexivity].
  - destruct (Z.of_nat (List.length k) =? 0) eqn:En.
    { split; [discriminate|]. inversion 1 as [|? ? Hk]; subst.
      apply good_key_dec in Hk. simpl in Hk. destruct Hk; congruence. }
    destruct (check_chars k) eqn:Ec; simpl.
    + rewrite IH. split.
      * intro H. constructor; [apply good_key_dec; now split | exact H].
      * now inversion 1.
    + split; [discriminate|]. inversion 1 as [|? ? Hk]; subst.
      apply good_key_dec in Hk. simpl in Hk. destruct Hk; congruence.
Qed.

Lemma CheckParameters_false (p : list (wstring * wstring)) :
  CheckParameters p = false <-> Exists (fun kv => bad_key (fst kv)) p.
Proof.
  induction p as [|[k v] p IH]; simpl.
  - split; [discriminate | inversion 1].
  - rewrite Exists_cons; simpl. rewrite bad_key_not_good, <- good_key_dec.
    destruct (Z.of_nat (List.length k) =? 0).
    { split; [intros _; left; intros [? _]; discriminate | reflexivity]. }
    destruct (check_chars k); simpl.
    + rewrite IH. split; [now right | intros [H|H]; [|exact H]].
      exfalso; apply H; now split.
    + split; [intros _; left; intros [_ ?]; discriminate | reflexivity].
Qed.

(** C2. [CheckParameters] accepts exactly the mappings all of whose keys are
    non-empty and made of characters with code points 32 to 127 other than
    the double quote; the values play no part in the answer; and a rejected
    key makes the answer [false] whatever comes after it. *)
Theorem CheckParameters_spec (p : list (wstring * wstring)) :
  (CheckParameters p = true <-> Forall (fun kv => good_key (fst kv)) p) /\
  (forall q, map fst q = map fst p -> CheckParameters q = CheckParameters p) /\
  (forall pre k v post, p = pre ++ (k, v) :: post -> bad_key k ->
     forall post', CheckParameters (pre ++ (k, v) :: post') = false).
Proof.
  split; [apply CheckParameters_true | split].
  - induction p as [|[k v] p IH]; intros [|[k' v'] q] E; simpl in *;
      try discriminate; [reflexivity|].
    injection E as -> E. now rewrite (IH q E).
  - intros pre k v post _ Hk post'. apply CheckParameters_false.
    apply Exists_app; right. now constructor.
Qed.

(** ** Runs of the helpers *)

Lemma GenerateRequestBody_run os p f n b old w :
  GenerateRequestBody os p f n b old w =
  (fst (GenerateRequestBody os p f n b old fresh),
   logged w [CallOpenFile (c_str f)]).
Proof.
  unfold GenerateRequestBody, GetFileContents, bind, emit, ret, logged; simpl.
  destruct (ifstream_open os (c_str f)) as [contents|]; simpl; [|reflexivity].
  destruct (empty contents); [reflexivity|].
  destruct (empty (WideToUTF8 os b)); [reflexivity|].
  destruct (empty (WideToUTF8 os f)); [reflexivity|].
  destruct (empty (WideToUTF8 os n)); reflexivity.
Qed.

(** C3. When some key of the mapping is empty or holds a character outside
    32 to 127 or a double quote, [SendRequest] returns [false] and leaves the
    world as it found it: no service is called at all. *)
Theorem SendRequest_bad_parameters os url p f n :
  Exists (fun kv => bad_key (fst kv)) p ->
  (forall w, SendRequest os url p f n w = (false, w)) /\
  result (SendRequest os url p f n) 0 = false /\
  calls (SendRequest os url p f n) 0 = [].
Proof.
  intro H. apply CheckParameters_false in H.
  unfold result, calls, SendRequest. rewrite H. simpl. auto.
Qed.

Lemma SendRequest_bad_parameters_witness :
  let p := [(L "ok", L "1"); (L "na" ++ [34] ++ L "me", L "2")] in
  result (SendRequest Desk.os Desk.url p Desk.dump (L "upload_file_minidump")) 0
    = false /\
  calls (SendRequest Desk.os Desk.url p Desk.dump (L "upload_file_minidump")) 0
    = [].
Proof.
  intro p.
  refine (proj2 (SendRequest_bad_parameters Desk.os Desk.url p Desk.dump
                   (L "upload_file_minidump") _)).
  apply Exists_cons_tl, Exists_cons_hd. right.
  apply Exists_cons_tl, Exists_cons_tl, Exists_cons_hd.
  unfold bad_char. right; right; reflexivity.
Defined.

Lemma CheckParameters_spec_witness :
  CheckParameters ([(L "ok", L "1")] ++ ([], L "2") :: [(L "z", L "3")]) = false.
Proof.
  refine (proj2 (proj2 (CheckParameters_spec
            ([(L "ok", L "1")] ++ ([], L "2") :: [])))
            [(L "ok", L "1")] [] (L "2") [] eq_refl _ [(L "z", L "3")]).
  left; reflexivity.
Defined.

(** ** The run of [SendRequest] written out *)

Ltac run_step := cbn beta iota delta [trace holdrand fst snd negb].
Ltac run_done := cbn [map]; rewrite <- ?app_assoc; reflexivity.

Lemma logged_logged w es es' : logged (logged w es) es' = logged w (es ++ es').
Proof. unfold logged; simpl. now rewrite app_assoc. Qed.

Lemma emit_logged e w : emit e w = (tt, logged w [e]).
Proof. reflexivity. Qed.

Lemma GenerateMultipartBoundary_run os w :
  GenerateMultipartBoundary os w =
  let (r0, s0) := rand os (holdrand w) in
  let (r1, s1) := rand os s0 in
  (c_str (swprintf_s kBoundaryLength kBoundaryPrefix r0 r1),
   {| trace := trace w ++ [CallRand; CallRand]; holdrand := s1 |}).
Proof.
  unfold GenerateMultipartBoundary, call_rand, bind, emit, ret.
  cbn [trace holdrand].
  destruct (rand os (holdrand w)) as [r0 s0]. cbn [trace holdrand].
  destruct (rand os s0) as [r1 s1].
  now rewrite <- app_assoc.
Qed.

Lemma SendRequest_open_run os c secure p f n w :
  SendRequest_open os c secure p f n w =
  let internet := InternetOpen os kUserAgent INTERNET_OPEN_TYPE_PRECONFIG in
  let e1 := [CallInternetOpen kUserAgent] in
  if internet =? NULL then (false, logged w e1)
  else
    let connection := InternetConnect os internet (lpszHostName c) (nPort c)
                        INTERNET_SERVICE_HTTP in
    let e2 := e1 ++ [CallInternetConnect internet (lpszHostName c) (nPort c)] in
    if connection =? NULL then (false, logged w (e2 ++ closes [internet]))
    else
      let flags := if secure then INTERNET_FLAG_SECURE else 0 in
      let request := HttpOpenRequest os connection (L "POST") (lpszUrlPath c)
                       flags in
      let e3 := e2 ++ [CallHttpOpenRequest connection (L "POST")
                         (lpszUrlPath c) flags] in
      if request =? NULL
      then (false, logged w (e3 ++ closes [connection; internet]))
      else
        let (r0, s0) := rand os (holdrand w) in
        let (r1, s1) := rand os s0 in
        let boundary := c_str (swprintf_s kBoundaryLength kBoundaryPrefix r0 r1) in
        let body := snd (fst (GenerateRequestBody os p f n boundary [] fresh)) in
        let e4 := e3 ++ [CallRand; CallRand;
                         CallHttpAddRequestHeaders request
                           (c_str (GenerateRequestHeader boundary));
                         CallOpenFile (c_str f);
                         CallHttpSendRequest request body] in
        let done := closes [request; connection; internet] in
        if negb (HttpSendRequest os request body)
        then (false, {| trace := trace w ++ e4 ++ done; holdrand := s1 |})
        else
          let after := {| trace := trace w ++ e4 ++
                                   [CallHttpQueryInfo request] ++ done;
                          holdrand := s1 |} in
          match HttpQueryInfo os request HTTP_QUERY_STATUS_CODE
                  http_status_size with
          | None => (false, after)
          | Some http_status => (wcscmp http_status (L "200") =? 0, after)
          end.
Proof.
  unfold SendRequest_open, AutoInternetHandle, call_InternetOpen,
    call_InternetConnect, call_HttpOpenRequest, call_HttpAddRequestHeaders,
    call_HttpSendRequest, call_HttpQueryInfo, bind, ret, emit, logged, closes.
  cbv zeta.
  destruct (InternetOpen os kUserAgent INTERNET_OPEN_TYPE_PRECONFIG =? NULL);
    run_step; [reflexivity|].
  destruct (InternetConnect os _ _ _ _ =? NULL); run_step; [run_done|].
  destruct (HttpOpenRequest os _ _ _ _ =? NULL); run_step; [run_done|].
  rewrite GenerateMultipartBoundary_run; run_step.
  destruct (rand os (holdrand w)) as [r0 s0].
  destruct (rand os s0) as [r1 s1]; run_step.
  rewrite GenerateRequestBody_run; unfold logged; run_step.
  destruct (HttpSendRequest os _ _); run_step; [|run_done].
  destruct (HttpQueryInfo os _ _ _); run_step; run_done.
Qed.

Lemma SendRequest_run os url p f n w :
  SendRequest os url p f n w =
  if negb (CheckParameters p) then (false, w)
  else
    let w1 := logged w [CallInternetCrackUrl url] in
    match InternetCrackUrl os url with
    | None => (false, w1)
    | Some c =>
        if wcscmp (lpszScheme c) (L "https") =? 0
        then SendRequest_open os c true p f n w1
        else if negb (wcscmp (lpszScheme c) (L "http") =? 0) then (false, w1)
        else SendRequest_open os c false p f n w1
    end.
Proof.
  unfold SendRequest, call_InternetCrackUrl, bind, ret, emit, logged.
  destruct (CheckParameters p); run_step; [|reflexivity].
  destruct (InternetCrackUrl os url) as [c|]; [|reflexivity].
  destruct (_ =? 0); [reflexivity|].
  destruct (_ =? 0); reflexivity.
Qed.

(** Membership in an explicit trace, one event at a time. *)
Ltac head_of t := match t with ?g _ => head_of g | _ => t end.
Ltac other_event H :=
  match type of H with
  | ?a = ?b =>
      let ha := head_of a in
      let hb := head_of b in
      tryif constr_eq ha hb then idtac else discriminate H
  end.
Ltac in_trace H :=
  cbn [In app map trace logged closes fst snd] in H;
  repeat (destruct H as [H|H]; [other_event H|]); try contradiction.

(** ** Status gating *)

Lemma CallHttpSendRequest_inj r b r' b' :
  CallHttpSendRequest r b = CallHttpSendRequest r' b' -> r = r' /\ b = b'.
Proof. intro H. injection H. auto. Qed.

Lemma SendRequest_open_status os c secure p f n w req body :
  (forall r b, ~ In (CallHttpSendRequest r b) (trace w)) ->
  In (CallHttpSendRequest req body)
     (trace (snd (SendRequest_open os c secure p f n w))) ->
  HttpSendRequest os req body = true ->
  (fst (SendRequest_open os c secure p f n w) = true <->
   exists status,
     HttpQueryInfo os req HTTP_QUERY_STATUS_CODE http_status_size = Some status
     /\ c_str status = L "200").
Proof.
  intros Hw Hin Hsent. rewrite SendRequest_open_run in *. cbv zeta in *.
  assert (Hno : forall es,
             In (CallHttpSendRequest req body) (trace w ++ es) ->
             In (CallHttpSendRequest req body) es).
  { intros es H. apply in_app_or in H. destruct H; [|assumption].
    now apply Hw in H. }
  destruct (_ =? NULL); [apply Hno in Hin; in_trace Hin|].
  destruct (_ =? NULL); [apply Hno in Hin; in_trace Hin|].
  destruct (_ =? NULL); [apply Hno in Hin; in_trace Hin|].
  destruct (rand os (holdrand w)) as [r0 s0].
  destruct (rand os s0) as [r1 s1].
  match type of Hin with
  | context [HttpSendRequest os ?r ?b] =>
      assert (E : req = r /\ body = b)
  end.
  { destruct (negb _); [|destruct (HttpQueryInfo os _ _ _)];
      apply Hno in Hin; in_trace Hin;
      apply CallHttpSendRequest_inj in Hin; destruct Hin; auto. }
  destruct E as [<- <-]. rewrite Hsent in *. cbn [negb fst] in *.
  destruct (HttpQueryInfo os req _ _) as [status|]; cbn [fst].
  - rewrite wcscmp_eqb. split.
    + intro E. exists status. split; [reflexivity | exact E].
    + intros [st [E1 E2]]. injection E1 as ->. exact E2.
  - split; [discriminate | intros [st [E _]]; discriminate].
Qed.

(** C5. Once the request has been sent, [SendRequest] returns [true] exactly
    when [HttpQueryInfo] succeeds and the status it reports is the string 200;
    a failed query or any other status gives [false]. *)
Theorem SendRequest_status_gate os url p f n seed req body :
  In (CallHttpSendRequest req body) (calls (SendRequest os url p f n) seed) ->
  HttpSendRequest os req body = true ->
  (result (SendRequest os url p f n) seed = true <->
   exists status,
     HttpQueryInfo os req HTTP_QUERY_STATUS_CODE http_status_size = Some status
     /\ c_str status = L "200").
Proof.
  unfold calls, result. rewrite SendRequest_run. cbv zeta.
  destruct (negb _); [intro H; in_trace H|].
  destruct (InternetCrackUrl os url) as [c|]; [|intro H; in_trace H].
  assert (Hw : forall r b, ~ In (CallHttpSendRequest r b)
             (trace (logged {| trace := []; holdrand := seed |}
                       [CallInternetCrackUrl url]))).
  { intros r b H. in_trace H. }
  destruct (_ =? 0); [now apply SendRequest_open_status|].
  destruct (negb _); [intro H; in_trace H|].
  now apply SendRequest_open_status.
Qed.

Lemma SendRequest_status_gate_witness :
  let p := [(L "foo", L "bar")] in
  let n := L "upload_file_minidump" in
  result (SendRequest Desk.os Desk.url p Desk.dump n) 1 = true <->
  exists status,
    HttpQueryInfo Desk.os 3 HTTP_QUERY_STATUS_CODE http_status_size
      = Some status /\ c_str status = L "200".
Proof.
  intros p n.
  apply (SendRequest_status_gate Desk.os Desk.url p Desk.dump n 1 3
           (snd (fst (GenerateRequestBody Desk.os p Desk.dump n
                        (result (GenerateMultipartBoundary Desk.os) 1)
                        [] fresh)))).
  - vm_compute. do 8 right. left. reflexivity.
  - reflexivity.
Defined.

(** ** Scheme and the secure flag *)

Lemma CallHttpOpenRequest_inj h v q fl h' v' q' fl' :
  CallHttpOpenRequest h v q fl = CallHttpOpenRequest h' v' q' fl' ->
  h = h' /\ v = v' /\ q = q' /\ fl = fl'.
Proof. intro H. injection H. auto. Qed.

Lemma SendRequest_open_flags os c secure p f n w conn verb path flags :
  (forall h v q fl, ~ In (CallHttpOpenRequest h v q fl) (trace w)) ->
  In (CallHttpOpenRequest conn verb path flags)
     (trace (snd (SendRequest_open os c secure p f n w))) ->
  flags = if secure then INTERNET_FLAG_SECURE else 0.
Proof.
  intros Hw Hin. rewrite SendRequest_open_run in Hin. cbv zeta in Hin.
  assert (Hno : forall es,
             In (CallHttpOpenRequest conn verb path flags) (trace w ++ es) ->
             In (CallHttpOpenRequest conn verb path flags) es).
  { intros es H. apply in_app_or in H. destruct H; [|assumption].
    now apply Hw in H. }
  destruct (_ =? NULL); [apply Hno in Hin; in_trace Hin|].
  destruct (_ =? NULL); [apply Hno in Hin; in_trace Hin|].
  destruct (_ =? NULL);
    [apply Hno in Hin; in_trace Hin;
     apply CallHttpOpenRequest_inj in Hin; symmetry; apply Hin|].
  destruct (rand os (holdrand w)) as [r0 s0].
  destruct (rand os s0) as [r1 s1].
  destruct (negb _); [|destruct (HttpQueryInfo os _ _ _)];
    apply Hno in Hin; in_trace Hin;
    apply CallHttpOpenRequest_inj in Hin; symmetry; apply Hin.
Qed.

Lemma SendRequest_open_request os c (secure : bool) p f n w :
  let internet := InternetOpen os kUserAgent INTERNET_OPEN_TYPE_PRECONFIG in
  let connection := InternetConnect os internet (lpszHostName c) (nPort c)
                      INTERNET_SERVICE_HTTP in
  internet <> NULL -> connection <> NULL ->
  In (CallHttpOpenRequest connection (L "POST") (lpszUrlPath c)
        (if secure then INTERNET_FLAG_SECURE else 0))
     (trace (snd (SendRequest_open os c secure p f n w))).
Proof.
  intros internet connection H1 H2. rewrite SendRequest_open_run. cbv zeta.
  fold internet. fold connection.
  destruct (Z.eqb_spec internet NULL); [contradiction|].
  destruct (Z.eqb_spec connection NULL); [contradiction|].
  destruct (_ =? NULL);
    [|destruct (rand os (holdrand w)) as [r0 s0];
      destruct (rand os s0) as [r1 s1];
      destruct (negb _); [|destruct (HttpQueryInfo os _ _ _)]];
    cbn [snd trace logged]; apply in_or_app; right;
    cbn [app In]; auto.
Qed.

Lemma scheme_literals :
  c_str (L "https") = L "https" /\ c_str (L "http") = L "http" /\
  L "https" <> L "http".
Proof. repeat split; try reflexivity. discriminate. Qed.

(** C6. A URL that does not parse makes [SendRequest] return [false]; so
    does a parsed scheme other than http and https.  Every request opened
    for an https URL carries [INTERNET_FLAG_SECURE], every request opened for
    an http URL carries no flag, and the request is opened whenever the field
    names are accepted and the client and the connection open. *)
Theorem SendRequest_scheme os url p f n seed :
  let r := result (SendRequest os url p f n) seed in
  let t := calls (SendRequest os url p f n) seed in
  (InternetCrackUrl os url = None -> r = false) /\
  (forall c, InternetCrackUrl os url = Some c ->
     let scheme := c_str (lpszScheme c) in
     let internet := InternetOpen os kUserAgent INTERNET_OPEN_TYPE_PRECONFIG in
     let connection := InternetConnect os internet (lpszHostName c) (nPort c)
                         INTERNET_SERVICE_HTTP in
     (scheme <> L "https" -> scheme <> L "http" -> r = false) /\
     (scheme = L "https" -> forall h v q flags,
        In (CallHttpOpenRequest h v q flags) t -> flags = INTERNET_FLAG_SECURE) /\
     (scheme = L "http" -> forall h v q flags,
        In (CallHttpOpenRequest h v q flags) t -> flags = 0) /\
     (CheckParameters p = true -> internet <> NULL -> connection <> NULL ->
        (scheme = L "https" ->
         In (CallHttpOpenRequest connection (L "POST") (lpszUrlPath c)
               INTERNET_FLAG_SECURE) t) /\
        (scheme = L "http" ->
         In (CallHttpOpenRequest connection (L "POST") (lpszUrlPath c) 0) t))).
Proof.
  destruct scheme_literals as [Es [Ep Hne]].
  cbv zeta. unfold calls, result. rewrite SendRequest_run. cbv zeta.
  set (w1 := logged _ _).
  assert (Hw : forall h v q fl, ~ In (CallHttpOpenRequest h v q fl) (trace w1)).
  { intros h v q fl H. in_trace H. }
  split.
  { intros ->. now destruct (negb _). }
  intros c ->.
  destruct (wcscmp (lpszScheme c) (L "https") =? 0) eqn:Hs;
    [apply wcscmp_eqb in Hs; rewrite Es in Hs
    |destruct (wcscmp (lpszScheme c) (L "http") =? 0) eqn:Hp;
       [apply wcscmp_eqb in Hp; rewrite Ep in Hp|]].
  - (* https *)
    repeat split.
    + intros H; contradiction.
    + intros _ h v q flags H. destruct (negb _); [in_trace H|].
      now apply SendRequest_open_flags in H.
    + intros E. rewrite E in Hs. now symmetry in Hs.
    + intros _. rewrite H. cbn [negb].
      now apply (SendRequest_open_request os c true).
    + intros E. rewrite E in Hs. now symmetry in Hs.
  - (* http *)
    repeat split.
    + intros _ H; contradiction.
    + intros E. rewrite E in Hp. contradiction.
    + intros _ h v q flags H. destruct (negb _); [in_trace H|].
      cbn [negb] in H. now apply SendRequest_open_flags in H.
    + intros E. rewrite E in Hp. contradiction.
    + intros _. rewrite H. cbn [negb].
      now apply (SendRequest_open_request os c false).
  - (* neither *)
    assert (N1 : c_str (lpszScheme c) <> L "https").
    { intro E. rewrite <- Es in E. apply wcscmp_eqb in E. congruence. }
    assert (N2 : c_str (lpszScheme c) <> L "http").
    { intro E. rewrite <- Ep in E. apply wcscmp_eqb in E. congruence. }
    repeat split; try contradiction.
    intros _ _. now destruct (negb _).
Qed.

Lemma SendRequest_scheme_witness :
  result (SendRequest Desk.os (L "ftp://crash.example.org/submit")
            [(L "foo", L "bar")] Desk.dump (L "upload_file_minidump")) 0
    = false /\
  In (CallHttpOpenRequest 2 (L "POST") (L "/submit") INTERNET_FLAG_SECURE)
     (calls (SendRequest Desk.os Desk.url
               [(L "foo", L "bar")] Desk.dump (L "upload_file_minidump")) 0).
Proof.
  split.
  - refine (proj1 (proj2 (SendRequest_scheme Desk.os
                            (L "ftp://crash.example.org/submit")
                            [(L "foo", L "bar")] Desk.dump
                            (L "upload_file_minidump") 0)
                     {| lpszScheme := L "ftp";
                        lpszHostName := L "crash.example.org";
                        nPort := 80;
                        lpszUrlPath := L "/submit" |} eq_refl) _ _);
      vm_compute; discriminate.
  - refine (proj1 (proj2 (proj2 (proj2 (proj2 (SendRequest_scheme Desk.os
                            Desk.url [(L "foo", L "bar")] Desk.dump
                            (L "upload_file_minidump") 0)
                     {| lpszScheme := L "https";
                        lpszHostName := L "crash.example.org";
                        nPort := 443;
                        lpszUrlPath := L "/submit" |} eq_refl)))
                     eq_refl _ _) eq_refl);
      vm_compute; discriminate.
Defined.

(** ** The header-add answer *)

Lemma CallHttpAddRequestHeaders_inj r h r' h' :
  CallHttpAddRequestHeaders r h = CallHttpAddRequestHeaders r' h' ->
  r = r' /\ h = h'.
Proof. intro H. injection H. auto. Qed.

Lemma SendRequest_open_header_ignored os answer c secure p f n w :
  SendRequest_open (with_HttpAddRequestHeaders os answer) c secure p f n w =
  SendRequest_open os c secure p f n w.
Proof. rewrite !SendRequest_open_run. reflexivity. Qed.

Lemma SendRequest_open_after_header os c secure p f n w request header :
  (forall r h, ~ In (CallHttpAddRequestHeaders r h) (trace w)) ->
  In (CallHttpAddRequestHeaders request header)
     (trace (snd (SendRequest_open os c secure p f n w))) ->
  exists pre body post,
    trace (snd (SendRequest_open os c secure p f n w)) =
    trace w ++ pre ++ CallHttpAddRequestHeaders request header ::
      CallOpenFile (c_str f) :: CallHttpSendRequest request body :: post.
Proof.
  intros Hw Hin. rewrite SendRequest_open_run in *. cbv zeta in *.
  assert (Hno : forall es,
             In (CallHttpAddRequestHeaders request header) (trace w ++ es) ->
             In (CallHttpAddRequestHeaders request header) es).
  { intros es H. apply in_app_or in H. destruct H; [|assumption].
    now apply Hw in H. }
  destruct (_ =? NULL); [apply Hno in Hin; in_trace Hin|].
  destruct (_ =? NULL); [apply Hno in Hin; in_trace Hin|].
  destruct (_ =? NULL); [apply Hno in Hin; in_trace Hin|].
  destruct (rand os (holdrand w)) as [r0 s0].
  destruct (rand os s0) as [r1 s1].
  destruct (negb _); [|destruct (HttpQueryInfo os _ _ _)];
    apply Hno in Hin; in_trace Hin;
    apply CallHttpAddRequestHeaders_inj in Hin; destruct Hin as [<- <-];
    cbn [snd trace];
    match goal with
    | |- context [CallHttpSendRequest _ ?b] =>
        eexists [_; _; _; _; _], b, _
    end;
    cbn [app]; reflexivity.
Qed.

(** C9. The answer of [HttpAddRequestHeaders] is not looked at: with any
    other answer [SendRequest] returns the same value after the same calls,
    and once the header has been offered the file is read and the request is
    sent. *)
Theorem SendRequest_header_unchecked os url p f n :
  (forall answer w,
     SendRequest (with_HttpAddRequestHeaders os answer) url p f n w =
     SendRequest os url p f n w) /\
  (forall seed request header,
     In (CallHttpAddRequestHeaders request header)
        (calls (SendRequest os url p f n) seed) ->
     exists pre body post,
       calls (SendRequest os url p f n) seed =
       pre ++ CallHttpAddRequestHeaders request header ::
         CallOpenFile (c_str f) :: CallHttpSendRequest request body :: post).
Proof.
  split.
  - intros answer w. rewrite !SendRequest_run. cbv zeta.
    change (InternetCrackUrl (with_HttpAddRequestHeaders os answer) url)
      with (InternetCrackUrl os url).
    destruct (InternetCrackUrl os url); [|reflexivity].
    now rewrite !SendRequest_open_header_ignored.
  - intros seed request header. unfold calls. rewrite SendRequest_run.
    cbv zeta. set (w1 := logged _ _).
    assert (Hw : forall r h, ~ In (CallHttpAddRequestHeaders r h) (trace w1)).
    { intros r h H. in_trace H. }
    destruct (negb _); [intro H; in_trace H|].
    destruct (InternetCrackUrl os url) as [c|]; [|intro H; in_trace H].
    destruct (_ =? 0); [|destruct (negb _); [intro H; in_trace H|]];
      intro H; destruct (SendRequest_open_after_header _ _ _ _ _ _ _ _ _ Hw H)
        as [pre [body [post E]]];
      exists (trace w1 ++ pre), body, post;
      rewrite E, <- app_assoc; reflexivity.
Qed.

Lemma SendRequest_header_unchecked_witness :
  let p := [(L "foo", L "bar")] in
  let n := L "upload_file_minidump" in
  result (SendRequest (Desk.platform Desk.files false (Some (L "200")))
            Desk.url p Desk.dump n) 1 = true /\
  exists pre body post,
    calls (SendRequest (Desk.platform Desk.files false (Some (L "200")))
             Desk.url p Desk.dump n) 1 =
    pre ++ CallHttpAddRequestHeaders 3
             (c_str (GenerateRequestHeader
                       (result (GenerateMultipartBoundary Desk.os) 1))) ::
      CallOpenFile (c_str Desk.dump) :: CallHttpSendRequest 3 body :: post.
Proof.
  intros p n. split; [reflexivity|].
  apply (proj2 (SendRequest_header_unchecked
                  (Desk.platform Desk.files false (Some (L "200")))
                  Desk.url p Desk.dump n) 1).
  vm_compute. do 6 right. left. reflexivity.
Defined.

(** ** The request body *)

Lemma empty_true {A} (v : list A) : empty v = true <-> v = [].
Proof. destruct v; simpl; split; congruence. Qed.

Lemma empty_false {A} (v : list A) : empty v = false <-> v <> [].
Proof. destruct v; simpl; split; congruence. Qed.

Lemma append_parameters os B p acc :
  fold_left (append_parameter os B) p acc =
  acc ++ flat_map (form_data_part os B) p.
Proof.
  revert acc; induction p as [|kv p IH]; intro acc; cbn [fold_left flat_map].
  - now rewrite app_nil_r.
  - rewrite IH. unfold append_parameter, form_data_part.
    now rewrite <- !app_assoc.
Qed.

Lemma GenerateRequestBody_value os p f n b old w :
  fst (GenerateRequestBody os p f n b old w) =
  let contents := result (GetFileContents os f) 0 in
  let B := WideToUTF8 os b in
  if empty contents then (false, old)
  else if empty B then (false, old)
  else
    let parts := flat_map (form_data_part os B) p in
    if empty (WideToUTF8 os f) then (false, parts)
    else if empty (WideToUTF8 os n) then (false, parts)
    else (true, parts ++
                file_part B (WideToUTF8 os n) (WideToUTF8 os f) contents).
Proof.
  unfold GenerateRequestBody, GetFileContents, result, bind, emit, ret.
  cbn [fst snd trace holdrand]. cbv zeta.
  destruct (ifstream_open os (c_str f)) as [contents|]; cbn [fst];
    [|reflexivity].
  destruct (empty contents); [reflexivity|].
  destruct (empty (WideToUTF8 os b)); [reflexivity|].
  rewrite append_parameters. cbn [app].
  destruct (empty (WideToUTF8 os f)); [reflexivity|].
  destruct (empty (WideToUTF8 os n)); [reflexivity|].
  cbn [fst]. unfold file_part. f_equal.
  now rewrite <- !app_assoc.
Qed.

(** C4. With the parameters foo = bar, a file holding the four bytes DATA,
    the part name upload_file_minidump and the boundary B, each transcoded
    to itself, [GenerateRequestBody] returns [true] and the body is the
    parameter part, the octet-stream part naming the path as given, and the
    closing delimiter, byte for byte. *)
Theorem GenerateRequestBody_framing os path path_utf8 old w :
  ifstream_open os (c_str path) = Some (s "DATA") ->
  WideToUTF8 os (L "foo") = s "foo" ->
  WideToUTF8 os (L "bar") = s "bar" ->
  WideToUTF8 os (L "upload_file_minidump") = s "upload_file_minidump" ->
  WideToUTF8 os (L "B") = s "B" ->
  WideToUTF8 os path = path_utf8 -> path_utf8 <> [] ->
  fst (GenerateRequestBody os [(L "foo", L "bar")] path
         (L "upload_file_minidump") (L "B") old w) =
  (true,
   s "--B" ++ CRLF ++
   s "Content-Disposition: form-data; name=" ++ DQUOTE ++ s "foo" ++ DQUOTE ++
     CRLF ++ CRLF ++
   s "bar" ++ CRLF ++
   s "--B" ++ CRLF ++
   s "Content-Disposition: form-data; name=" ++ DQUOTE ++
     s "upload_file_minidump" ++ DQUOTE ++ s "; filename=" ++ DQUOTE ++
     path_utf8 ++ DQUOTE ++ CRLF ++
   s "Content-Type: application/octet-stream" ++ CRLF ++ CRLF ++
   s "DATA" ++ CRLF ++
   s "--B--" ++ CRLF).
Proof.
  intros Hfile Hfoo Hbar Hname HB Hpath Hne.
  rewrite GenerateRequestBody_value. cbv zeta.
  unfold result, GetFileContents, bind, emit, ret. cbn [fst snd trace holdrand].
  rewrite Hfile, HB, Hname, Hpath. cbn [fst flat_map].
  unfold form_data_part. cbn [fst snd]. rewrite Hfoo, Hbar.
  apply empty_false in Hne. rewrite Hne.
  change (empty (s "DATA")) with false.
  change (empty (s "B")) with false.
  change (empty (s "upload_file_minidump")) with false.
  cbv iota. unfold file_part. reflexivity.
Qed.

Lemma GenerateRequestBody_framing_witness :
  fst (GenerateRequestBody Desk.os [(L "foo", L "bar")] Desk.dump
         (L "upload_file_minidump") (L "B") [] fresh) =
  (true,
   s "--B" ++ CRLF ++
   s "Content-Disposition: form-data; name=" ++ DQUOTE ++ s "foo" ++ DQUOTE ++
     CRLF ++ CRLF ++
   s "bar" ++ CRLF ++
   s "--B" ++ CRLF ++
   s "Content-Disposition: form-data; name=" ++ DQUOTE ++
     s "upload_file_minidump" ++ DQUOTE ++ s "; filename=" ++ DQUOTE ++
     s "C:\dumps\a.dmp" ++ DQUOTE ++ CRLF ++
   s "Content-Type: application/octet-stream" ++ CRLF ++ CRLF ++
   s "DATA" ++ CRLF ++
   s "--B--" ++ CRLF).
Proof.
  apply (GenerateRequestBody_framing Desk.os Desk.dump (s "C:\dumps\a.dmp"));
    first [reflexivity | vm_compute; discriminate].
Defined.

(** C8. A file path or a part name that transcodes to the empty string makes
    [GenerateRequestBody] return [false].  A parameter whose name or value
    transcodes to the empty string does not: when the file, the boundary, the
    path and the part name are in order the call returns [true], and the body
    holds that parameter's part, with the empty bytes in place, between the
    parts of the parameters before and after it. *)
Theorem GenerateRequestBody_empty_transcodings os p f n b old w :
  let r := fst (GenerateRequestBody os p f n b old w) in
  let contents := result (GetFileContents os f) 0 in
  let B := WideToUTF8 os b in
  (WideToUTF8 os f = [] \/ WideToUTF8 os n = [] -> fst r = false) /\
  (forall pre k v post,
     p = pre ++ (k, v) :: post ->
     WideToUTF8 os k = [] \/ WideToUTF8 os v = [] ->
     contents <> [] -> B <> [] ->
     WideToUTF8 os f <> [] -> WideToUTF8 os n <> [] ->
     r = (true,
          flat_map (form_data_part os B) pre ++
          (s "--" ++ B ++ CRLF ++
           s "Content-Disposition: form-data; name=" ++ DQUOTE ++
           WideToUTF8 os k ++ DQUOTE ++ CRLF ++ CRLF ++
           WideToUTF8 os v ++ CRLF) ++
          flat_map (form_data_part os B) post ++
          file_part B (WideToUTF8 os n) (WideToUTF8 os f) contents)).
Proof.
  cbv zeta. rewrite GenerateRequestBody_value. cbv zeta. split.
  - intros H.
    destruct (empty (result _ _)); [reflexivity|].
    destruct (empty (WideToUTF8 os b)); [reflexivity|].
    destruct H as [H|H]; apply empty_true in H; rewrite H; [reflexivity|].
    now destruct (empty (WideToUTF8 os f)).
  - intros pre k v post -> _ Hc HB Hf Hn.
    apply empty_false in Hc, HB, Hf, Hn. rewrite Hc, HB, Hf, Hn.
    f_equal. rewrite flat_map_app. cbn [flat_map].
    change (s "--" ++ WideToUTF8 os b ++ CRLF ++
            s "Content-Disposition: form-data; name=" ++ DQUOTE ++
            WideToUTF8 os k ++ DQUOTE ++ CRLF ++ CRLF ++
            WideToUTF8 os v ++ CRLF)
      with (form_data_part os (WideToUTF8 os b) (k, v)).
    now rewrite <- !app_assoc.
Qed.

Lemma GenerateRequestBody_empty_transcodings_witness :
  fst (GenerateRequestBody Desk.os [(L "foo", L "bar"); (L "note", [])]
         Desk.dump (L "upload_file_minidump") (L "B") [] fresh) =
  (true,
   form_data_part Desk.os (s "B") (L "foo", L "bar") ++
   (s "--B" ++ CRLF ++
    s "Content-Disposition: form-data; name=" ++ DQUOTE ++ s "note" ++
    DQUOTE ++ CRLF ++ CRLF ++ CRLF) ++
   file_part (s "B") (s "upload_file_minidump") (s "C:\dumps\a.dmp")
     (s "DATA")).
Proof.
  refine (proj2 (GenerateRequestBody_empty_transcodings Desk.os
                   [(L "foo", L "bar"); (L "note", [])] Desk.dump
                   (L "upload_file_minidump") (L "B") [] fresh)
            [(L "foo", L "bar")] (L "note") [] [] eq_refl _ _ _ _ _).
  - right; reflexivity.
  - vm_compute; discriminate.
  - vm_compute; discriminate.
  - vm_compute; discriminate.
  - vm_compute; discriminate.
Defined.

(** C10. When [GenerateRequestBody] fails because the file is missing or
    empty, or because the boundary transcodes to the empty string, the
    caller's string is as it was on entry.  When those two checks pass and
    the call fails on the path or on the part name, the caller's string has
    been cleared and holds the parts of the parameters. *)
Theorem GenerateRequestBody_frame os p f n b old w :
  let r := fst (GenerateRequestBody os p f n b old w) in
  let contents := result (GetFileContents os f) 0 in
  let B := WideToUTF8 os b in
  (contents = [] \/ B = [] -> r = (false, old)) /\
  (contents <> [] -> B <> [] ->
   WideToUTF8 os f = [] \/ WideToUTF8 os n = [] ->
   r = (false, flat_map (form_data_part os B) p)).
Proof.
  cbv zeta. rewrite GenerateRequestBody_value. cbv zeta. split.
  - intros [H|H]; apply empty_true in H; rewrite H; [reflexivity|].
    now destruct (empty (result _ _)).
  - intros Hc HB H. apply empty_false in Hc, HB. rewrite Hc, HB.
    destruct H as [H|H]; apply empty_true in H; rewrite H; [reflexivity|].
    now destruct (empty (WideToUTF8 os f)).
Qed.

Lemma GenerateRequestBody_frame_witness :
  fst (GenerateRequestBody Desk.os [(L "foo", L "bar")]
         (L "C:\dumps\empty.dmp") (L "upload_file_minidump") (L "B")
         (s "stale") fresh) = (false, s "stale") /\
  fst (GenerateRequestBody Desk.os [(L "foo", L "bar")] Desk.dump [] (L "B")
         (s "stale") fresh) =
    (false,
     s "--B" ++ CRLF ++ s "Content-Disposition: form-data; name=" ++ DQUOTE ++
     s "foo" ++ DQUOTE ++ CRLF ++ CRLF ++ s "bar" ++ CRLF).
Proof.
  split.
  - apply (proj1 (GenerateRequestBody_frame Desk.os [(L "foo", L "bar")]
                    (L "C:\dumps\empty.dmp") (L "upload_file_minidump")
                    (L "B") (s "stale") fresh)).
    left; reflexivity.
  - apply (proj2 (GenerateRequestBody_frame Desk.os [(L "foo", L "bar")]
                    Desk.dump [] (L "B") (s "stale") fresh)).
    + vm_compute; discriminate.
    + vm_compute; discriminate.
    + right; reflexivity.
Defined.

(** ** The boundary *)

Section Hexadecimal.

Lemma hex_digit_upper d : 0 <= d < 16 -> upper_hex_digit (hex_digit d).
Proof.
  intro H. unfold upper_hex_digit, hex_digit.
  destruct (Z.ltb_spec d 10); lia.
Qed.

Lemma hex_digit_value_digit d : 0 <= d < 16 -> hex_digit_value (hex_digit d) = d.
Proof.
  intro H. unfold hex_digit_value, hex_digit.
  destruct (Z.ltb_spec d 10);
    match goal with |- context [?a <? 65] => destruct (Z.ltb_spec a 65) end;
    lia.
Qed.

Lemma hex_rev_upper fuel v : Forall upper_hex_digit (hex_rev fuel v).
Proof.
  revert v; induction fuel as [|fuel IH]; intro v; cbn [hex_rev].
  - constructor.
  - constructor.
    + apply hex_digit_upper, Z.mod_pos_bound. lia.
    + destruct (v / 16 =? 0); [constructor | apply IH].
Qed.

Lemma hex_rev_length fuel v :
  (List.length (hex_rev (S fuel) v) <= S fuel)%nat /\
  (1 <= List.length (hex_rev (S fuel) v))%nat.
Proof.
  revert v; induction fuel as [|fuel IH]; intro v.
  - cbn [hex_rev]. destruct (v / 16 =? 0); cbn [List.length]; lia.
  - change (hex_rev (S (S fuel)) v)
      with (hex_digit (v mod 16) ::
            (if v / 16 =? 0 then [] else hex_rev (S fuel) (v / 16))).
    destruct (v / 16 =? 0); cbn [List.length]; [lia|].
    specialize (IH (v / 16)). lia.
Qed.

Lemma hex_rev_value fuel v :
  0 <= v < 16 ^ Z.of_nat fuel -> hex_value_rev (hex_rev fuel v) = v.
Proof.
  revert v; induction fuel as [|fuel IH]; intros v Hv.
  - cbn in Hv. cbn [hex_rev hex_value_rev]. lia.
  - rewrite Nat2Z.inj_succ, Z.pow_succ_r in Hv by lia.
    cbn [hex_rev hex_value_rev].
    rewrite hex_digit_value_digit by (apply Z.mod_pos_bound; lia).
    pose proof (Z.div_mod v 16 ltac:(lia)) as E.
    destruct (Z.eqb_spec (v / 16) 0) as [Hz|Hz]; cbn [hex_value_rev].
    + lia.
    + rewrite IH; [lia|].
      split; [apply Z.div_pos; lia | apply Z.div_lt_upper_bound; lia].
Qed.

Lemma hex_value_app digits c :
  hex_value (digits ++ [c]) = 16 * hex_value digits + hex_digit_value c.
Proof. unfold hex_value. now rewrite fold_left_app. Qed.

Lemma hex_value_of_rev digits : hex_value (rev digits) = hex_value_rev digits.
Proof.
  induction digits as [|c digits IH]; [reflexivity|].
  cbn [rev hex_value_rev]. rewrite hex_value_app, IH. lia.
Qed.

Lemma hex_value_zeros k digits :
  hex_value (repeat 48 k ++ digits) = hex_value digits.
Proof.
  unfold hex_value. rewrite fold_left_app. f_equal.
  induction k as [|k IH]; [reflexivity|]. cbn [repeat fold_left].
  exact IH.
Qed.

Lemma as_unsigned_range v : 0 <= as_unsigned v < 16 ^ Z.of_nat 8.
Proof. unfold as_unsigned. change (16 ^ Z.of_nat 8) with (2 ^ 32).
  apply Z.mod_pos_bound. lia. Qed.

(** [%08X] prints exactly eight upper-case digits, those of the argument
    read as a 32-bit unsigned number. *)
Lemma fmt_08X_spec v :
  List.length (fmt_08X v) = 8%nat /\
  Forall upper_hex_digit (fmt_08X v) /\
  hex_value (fmt_08X v) = as_unsigned v.
Proof.
  unfold fmt_08X. cbv zeta.
  destruct (hex_rev_length 7 (as_unsigned v)) as [Hle Hge].
  repeat split.
  - rewrite length_app, repeat_length, !length_rev. lia.
  - apply Forall_app; split.
    + apply Forall_forall. intros c Hc. apply repeat_spec in Hc. subst.
      left; lia.
    + apply Forall_rev, hex_rev_upper.
  - rewrite hex_value_zeros, hex_value_of_rev.
    apply hex_rev_value, as_unsigned_range.
Qed.

End Hexadecimal.

(** C7. Whatever the two numbers [rand] returns, the boundary is 43
    characters long: 27 dashes, then the eight upper-case hexadecimal digits
    of the first number and the eight of the second. *)
Theorem GenerateMultipartBoundary_format os w :
  let boundary := fst (GenerateMultipartBoundary os w) in
  let r0 := fst (rand os (holdrand w)) in
  let r1 := fst (rand os (snd (rand os (holdrand w)))) in
  List.length boundary = 43%nat /\
  exists h0 h1,
    boundary = repeat 45 27 ++ h0 ++ h1 /\
    List.length h0 = 8%nat /\ List.length h1 = 8%nat /\
    Forall upper_hex_digit h0 /\ Forall upper_hex_digit h1 /\
    hex_value h0 = as_unsigned r0 /\ hex_value h1 = as_unsigned r1.
Proof.
  cbv zeta. rewrite GenerateMultipartBoundary_run.
  destruct (rand os (holdrand w)) as [r0 s0]. cbn [fst snd].
  destruct (rand os s0) as [r1 s1]. cbn [fst snd].
  destruct (fmt_08X_spec r0) as [L0 [U0 V0]].
  destruct (fmt_08X_spec r1) as [L1 [U1 V1]].
  assert (E : c_str (swprintf_s kBoundaryLength kBoundaryPrefix r0 r1) =
              repeat 45 27 ++ fmt_08X r0 ++ fmt_08X r1).
  { unfold swprintf_s. cbv zeta.
    change (c_str kBoundaryPrefix) with (repeat 45 27).
    rewrite !length_app, repeat_length, L0, L1.
    change (Z.of_nat (27 + (8 + 8)) <? kBoundaryLength) with true. cbv iota.
    apply c_str_no_nul. rewrite !Forall_app. repeat split.
    - apply Forall_forall. intros c Hc. apply repeat_spec in Hc. lia.
    - eapply Forall_impl; [|exact U0]. intros c [H|H]; cbv beta; lia.
    - eapply Forall_impl; [|exact U1]. intros c [H|H]; cbv beta; lia. }
  rewrite E. split.
  - rewrite !length_app, repeat_length, L0, L1. reflexivity.
  - exists (fmt_08X r0), (fmt_08X r1). auto 10.
Qed.

(** ** When the body cannot be built *)

Lemma CallOpenFile_inj a b : CallOpenFile a = CallOpenFile b -> a = b.
Proof. intro H. injection H. auto. Qed.

Lemma SendRequest_open_before_file os c (secure : bool) p f n w name :
  (forall x, ~ In (CallOpenFile x) (trace w)) ->
  In (CallOpenFile name)
     (trace (snd (SendRequest_open os c secure p f n w))) ->
  let flags := if secure then INTERNET_FLAG_SECURE else 0 in
  let internet := InternetOpen os kUserAgent INTERNET_OPEN_TYPE_PRECONFIG in
  let connection := InternetConnect os internet (lpszHostName c) (nPort c)
                      INTERNET_SERVICE_HTTP in
  let request := HttpOpenRequest os connection (L "POST") (lpszUrlPath c)
                   flags in
  exists header rest,
    internet <> NULL /\ connection <> NULL /\ request <> NULL /\
    trace (snd (SendRequest_open os c secure p f n w)) =
    trace w ++
    [CallInternetOpen kUserAgent;
     CallInternetConnect internet (lpszHostName c) (nPort c);
     CallHttpOpenRequest connection (L "POST") (lpszUrlPath c) flags;
     CallRand; CallRand; CallHttpAddRequestHeaders request header;
     CallOpenFile name] ++ rest.
Proof.
  intros Hw Hin. rewrite SendRequest_open_run in *. cbv zeta in *.
  assert (Hno : forall es,
             In (CallOpenFile name) (trace w ++ es) ->
             In (CallOpenFile name) es).
  { intros es H. apply in_app_or in H. destruct H; [|assumption].
    now apply Hw in H. }
  destruct (Z.eqb_spec (InternetOpen os kUserAgent INTERNET_OPEN_TYPE_PRECONFIG)
              NULL) as [|H1]; [apply Hno in Hin; in_trace Hin|].
  destruct (Z.eqb_spec
              (InternetConnect os
                 (InternetOpen os kUserAgent INTERNET_OPEN_TYPE_PRECONFIG)
                 (lpszHostName c) (nPort c) INTERNET_SERVICE_HTTP) NULL)
    as [|H2]; [apply Hno in Hin; in_trace Hin|].
  match goal with
  | |- context [if ?x =? NULL then _ else _] =>
      destruct (Z.eqb_spec x NULL) as [|H3]
  end; [apply Hno in Hin; in_trace Hin|].
  destruct (rand os (holdrand w)) as [r0 s0].
  destruct (rand os s0) as [r1 s1].
  destruct (negb _); [|destruct (HttpQueryInfo os _ _ _)];
    apply Hno in Hin; in_trace Hin; apply CallOpenFile_inj in Hin; subst name;
    cbn [snd trace app];
    eexists _, _;
    (split; [exact H1 | split; [exact H2 | split; [exact H3 | reflexivity]]]).
Qed.

(** C1, as the code has it.  [GenerateRequestBody] returns [false] when the
    file is unreadable or empty or when the boundary, the path or the part
    name transcodes to the empty string; and in a run of [SendRequest] the
    file is read only after the client, the connection and the request handle
    have been opened and the header has been offered. *)
Theorem SendRequest_body_failure os url p f n :
  (forall b old w,
     result (GetFileContents os f) 0 = [] \/ WideToUTF8 os b = [] \/
     WideToUTF8 os f = [] \/ WideToUTF8 os n = [] ->
     fst (fst (GenerateRequestBody os p f n b old w)) = false) /\
  (forall seed name,
     In (CallOpenFile name) (calls (SendRequest os url p f n) seed) ->
     exists c flags header rest,
       let internet := InternetOpen os kUserAgent INTERNET_OPEN_TYPE_PRECONFIG in
       let connection := InternetConnect os internet (lpszHostName c) (nPort c)
                           INTERNET_SERVICE_HTTP in
       let request := HttpOpenRequest os connection (L "POST") (lpszUrlPath c)
                        flags in
       InternetCrackUrl os url = Some c /\
       internet <> NULL /\ connection <> NULL /\ request <> NULL /\
       calls (SendRequest os url p f n) seed =
       [CallInternetCrackUrl url;
        CallInternetOpen kUserAgent;
        CallInternetConnect internet (lpszHostName c) (nPort c);
        CallHttpOpenRequest connection (L "POST") (lpszUrlPath c) flags;
        CallRand; CallRand; CallHttpAddRequestHeaders request header;
        CallOpenFile name] ++ rest).
Proof.
  split.
  - intros b old w H. rewrite GenerateRequestBody_value. cbv zeta.
    destruct H as [H|[H|[H|H]]]; apply empty_true in H; rewrite H;
      repeat match goal with
        | |- context [if empty ?v then _ else _] => destruct (empty v)
        end; reflexivity.
  - intros seed name. unfold calls. rewrite SendRequest_run. cbv zeta.
    set (w1 := logged _ _).
    assert (Hw : forall x, ~ In (CallOpenFile x) (trace w1)).
    { intros x H. in_trace H. }
    destruct (negb _); [intro H; in_trace H|].
    destruct (InternetCrackUrl os url) as [c|]; [|intro H; in_trace H].
    destruct (_ =? 0); [|destruct (negb _); [intro H; in_trace H|]];
      intro H;
      destruct (SendRequest_open_before_file _ _ _ _ _ _ _ _ Hw H)
        as [header [rest [H1 [H2 [H3 E]]]]];
      eexists c, _, header, rest; cbv zeta;
      (split; [reflexivity | split; [exact H1 | split; [exact H2 |
         split; [exact H3 | rewrite E; reflexivity]]]]).
Qed.

Lemma SendRequest_body_failure_witness :
  let missing := L "C:\dumps\missing.dmp" in
  let p := [(L "foo", L "bar")] in
  let n := L "upload_file_minidump" in
  fst (fst (GenerateRequestBody Desk.os p missing n (L "B") [] fresh)) = false
  /\
  exists c flags header rest,
    let internet :=
      InternetOpen Desk.os kUserAgent INTERNET_OPEN_TYPE_PRECONFIG in
    let connection :=
      InternetConnect Desk.os internet (lpszHostName c) (nPort c)
        INTERNET_SERVICE_HTTP in
    let request :=
      HttpOpenRequest Desk.os connection (L "POST") (lpszUrlPath c) flags in
    InternetCrackUrl Desk.os Desk.url = Some c /\
    internet <> NULL /\ connection <> NULL /\ request <> NULL /\
    calls (SendRequest Desk.os Desk.url p missing n) 1 =
    [CallInternetCrackUrl Desk.url;
     CallInternetOpen kUserAgent;
     CallInternetConnect internet (lpszHostName c) (nPort c);
     CallHttpOpenRequest connection (L "POST") (lpszUrlPath c) flags;
     CallRand; CallRand; CallHttpAddRequestHeaders request header;
     CallOpenFile missing] ++ rest.
Proof.
  intros missing p n. split.
  - apply (proj1 (SendRequest_body_failure Desk.os Desk.url p missing n)).
    left; reflexivity.
  - apply (proj2 (SendRequest_body_failure Desk.os Desk.url p missing n)
             1 missing).
    vm_compute. do 7 right. left. reflexivity.
Defined.

(** C1, as the claim has it, fails: the file is missing, the body cannot be
    built, and the request is sent with an empty body and reported as
    uploaded. *)
Lemma SendRequest_missing_file_uploaded :
  let missing := L "C:\dumps\missing.dmp" in
  let p := [(L "foo", L "bar")] in
  let n := L "upload_file_minidump" in
  let boundary := result (GenerateMultipartBoundary Desk.os) 1 in
  result (GetFileContents Desk.os missing) 0 = [] /\
  fst (fst (GenerateRequestBody Desk.os p missing n boundary [] fresh)) = false
  /\
  result (SendRequest Desk.os Desk.url p missing n) 1 = true /\
  In (CallHttpSendRequest 3 [])
     (calls (SendRequest Desk.os Desk.url p missing n) 1) /\
  ~ (result (SendRequest Desk.os Desk.url p missing n) 1 = false /\
     forall request body,
       ~ In (CallHttpSendRequest request body)
            (calls (SendRequest Desk.os Desk.url p missing n) 1)).
Proof.
  intros missing p n boundary.
  assert (R : result (SendRequest Desk.os Desk.url p missing n) 1 = true)
    by (vm_compute; reflexivity).
  repeat split; try (vm_compute; reflexivity).
  - vm_compute. do 8 right. left. reflexivity.
  - intros [H _]. rewrite R in H. discriminate H.
Qed.

(** * Further properties of the call sequence *)

(** ** Handles *)

Ltac name_handles os c secure :=
  set (internet := InternetOpen os kUserAgent INTERNET_OPEN_TYPE_PRECONFIG)
    in *;
  set (connection := InternetConnect os internet (lpszHostName c) (nPort c)
                       INTERNET_SERVICE_HTTP) in *;
  set (request := HttpOpenRequest os connection (L "POST") (lpszUrlPath c)
                    (if secure then INTERNET_FLAG_SECURE else 0)) in *.

Ltac released H1 H2 H3 :=
  repeat match goal with x := _ |- _ => subst x end;
  cbn [snd trace logged flat_map acquired app rev closes map];
  rewrite ?H1, ?H2, ?H3; cbn [app rev map];
  rewrite ?Z.eqb_neq in *;
  split; [reflexivity|];
  split; repeat constructor; cbn [handle_used]; congruence.

Lemma SendRequest_open_releases os c (secure : bool) p f n w :
  exists work,
    trace (snd (SendRequest_open os c secure p f n w)) =
    trace w ++ work ++ closes (rev (flat_map (acquired os) work)) /\
    Forall (fun e => is_close e = false) work /\
    Forall (fun e => handle_used e <> Some NULL)
      (work ++ closes (rev (flat_map (acquired os) work))).
Proof.
  rewrite SendRequest_open_run. cbv zeta. name_handles os c secure.
  destruct (internet =? NULL) eqn:H1.
  { exists [CallInternetOpen kUserAgent]. released H1 H1 H1. }
  destruct (connection =? NULL) eqn:H2.
  { match goal with
    | |- context [logged w (?es ++ closes _)] => exists es
    end. released H1 H2 H2. }
  destruct (request =? NULL) eqn:H3.
  { match goal with
    | |- context [logged w (?es ++ closes _)] => exists es
    end. released H1 H2 H3. }
  destruct (rand os (holdrand w)) as [r0 s0].
  destruct (rand os s0) as [r1 s1].
  destruct (negb _); [|destruct (HttpQueryInfo os _ _ _)].
  - match goal with
    | |- context [trace w ++ ?es ++ closes _] => exists es
    end. released H1 H2 H3.
  - match goal with
    | |- context [trace w ++ ?es ++ [?q] ++ closes _] => exists (es ++ [q])
    end. released H1 H2 H3.
  - match goal with
    | |- context [trace w ++ ?es ++ [?q] ++ closes _] => exists (es ++ [q])
    end. released H1 H2 H3.
Qed.

(** Every run of [SendRequest] is one of three: stopped at the field names,
    stopped at the URL, or a run of [SendRequest_open] after the URL has been
    cracked. *)
Lemma SendRequest_cases os url p f n seed (P : bool * World -> Prop) :
  let start := {| trace := []; holdrand := seed |} in
  let w1 := logged start [CallInternetCrackUrl url] in
  (CheckParameters p = false -> P (false, start)) ->
  (CheckParameters p = true ->
   (InternetCrackUrl os url = None \/
    exists c, InternetCrackUrl os url = Some c /\
              c_str (lpszScheme c) <> L "https" /\
              c_str (lpszScheme c) <> L "http") ->
   P (false, w1)) ->
  (forall c,
     CheckParameters p = true -> InternetCrackUrl os url = Some c ->
     c_str (lpszScheme c) = L "https" \/
     (c_str (lpszScheme c) <> L "https" /\ c_str (lpszScheme c) = L "http") ->
     P (SendRequest_open os c (wcscmp (lpszScheme c) (L "https") =? 0)
          p f n w1)) ->
  P (SendRequest os url p f n start).
Proof.
  destruct scheme_literals as [Es [Ep Hne]].
  cbv zeta. intros Hbad Hurl Hopen. rewrite SendRequest_run. cbv zeta.
  destruct (CheckParameters p); cbn [negb]; [|now apply Hbad].
  destruct (InternetCrackUrl os url) as [c|] eqn:Hc; [|apply Hurl; auto].
  destruct (wcscmp (lpszScheme c) (L "https") =? 0) eqn:Hs.
  { specialize (Hopen c eq_refl eq_refl). rewrite Hs in Hopen.
    apply Hopen. left. apply wcscmp_eqb in Hs. now rewrite Es in Hs. }
  assert (N1 : c_str (lpszScheme c) <> L "https").
  { intro E. rewrite <- Es in E. apply wcscmp_eqb in E. congruence. }
  destruct (wcscmp (lpszScheme c) (L "http") =? 0) eqn:Hp; cbn [negb].
  - specialize (Hopen c eq_refl eq_refl). rewrite Hs in Hopen.
    apply Hopen. right. apply wcscmp_eqb in Hp. now rewrite Ep in Hp.
  - apply Hurl; [reflexivity|]. right. exists c. repeat split; auto.
    intro E. rewrite <- Ep in E. apply wcscmp_eqb in E. congruence.
Qed.

(** X1. On every path out of [SendRequest] the calls end with the closing of
    exactly the handles that were obtained non-null, last obtained first, and
    no handle is closed before that. *)
Theorem SendRequest_releases_handles os url p f n seed :
  exists work,
    calls (SendRequest os url p f n) seed =
    work ++ closes (rev (flat_map (acquired os) work)) /\
    Forall (fun e => is_close e = false) work.
Proof.
  unfold calls. apply SendRequest_cases; cbv zeta.
  - intros _. exists []. split; [reflexivity | constructor].
  - intros _ _. exists [CallInternetCrackUrl url].
    split; [reflexivity | repeat constructor].
  - intros c _ _ _.
    destruct (SendRequest_open_releases os c
                (wcscmp (lpszScheme c) (L "https") =? 0) p f n
                (logged {| trace := []; holdrand := seed |}
                   [CallInternetCrackUrl url]))
      as [work [E [Hw _]]].
    exists (CallInternetCrackUrl url :: work). rewrite E. split.
    + reflexivity.
    + constructor; [reflexivity | exact Hw].
Qed.

(** X2. [SendRequest] never makes a call on a null handle: not a connect, an
    open-request, a header, a send, a query or a close. *)
Theorem SendRequest_no_null_handle os url p f n seed :
  Forall (fun e => handle_used e <> Some NULL)
    (calls (SendRequest os url p f n) seed).
Proof.
  unfold calls. apply SendRequest_cases; cbv zeta.
  - intros _. constructor.
  - intros _ _. repeat constructor. discriminate.
  - intros c _ _ _.
    destruct (SendRequest_open_releases os c
                (wcscmp (lpszScheme c) (L "https") =? 0) p f n
                (logged {| trace := []; holdrand := seed |}
                   [CallInternetCrackUrl url]))
      as [work [E [_ Hn]]].
    rewrite E. cbn [trace logged app]. constructor; [discriminate | exact Hn].
Qed.

(** ** Success, end to end *)

Lemma GenerateMultipartBoundary_value os w :
  fst (GenerateMultipartBoundary os w) =
  result (GenerateMultipartBoundary os) (holdrand w).
Proof.
  unfold result. rewrite !GenerateMultipartBoundary_run. cbn [holdrand].
  destruct (rand os (holdrand w)) as [r0 s0].
  now destruct (rand os s0) as [r1 s1].
Qed.

Lemma SendRequest_open_true os c (secure : bool) p f n w :
  let internet := InternetOpen os kUserAgent INTERNET_OPEN_TYPE_PRECONFIG in
  let connection := InternetConnect os internet (lpszHostName c) (nPort c)
                      INTERNET_SERVICE_HTTP in
  let request := HttpOpenRequest os connection (L "POST") (lpszUrlPath c)
                   (if secure then INTERNET_FLAG_SECURE else 0) in
  let boundary := result (GenerateMultipartBoundary os) (holdrand w) in
  let body := snd (result (GenerateRequestBody os p f n boundary []) 0) in
  fst (SendRequest_open os c secure p f n w) = true <->
  internet <> NULL /\ connection <> NULL /\ request <> NULL /\
  HttpSendRequest os request body = true /\
  exists status,
    HttpQueryInfo os request HTTP_QUERY_STATUS_CODE http_status_size
      = Some status /\ c_str status = L "200".
Proof.
  cbv zeta. rewrite SendRequest_open_run. cbv zeta.
  rewrite <- GenerateMultipartBoundary_value, GenerateMultipartBoundary_run.
  name_handles os c secure.
  destruct (Z.eqb_spec internet NULL) as [E1|N1];
    [split; [discriminate | intros [H _]; contradiction]|].
  destruct (Z.eqb_spec connection NULL) as [E2|N2];
    [split; [discriminate | intros [_ [H _]]; contradiction]|].
  destruct (Z.eqb_spec request NULL) as [E3|N3];
    [split; [discriminate | intros [_ [_ [H _]]]; contradiction]|].
  destruct (rand os (holdrand w)) as [r0 s0].
  destruct (rand os s0) as [r1 s1]. cbn [fst].
  change (result (GenerateRequestBody os p f n ?b []) 0)
    with (fst (GenerateRequestBody os p f n b [] fresh)).
  destruct (HttpSendRequest os request _); cbn [negb fst].
  2:{ split; [discriminate | intros [_ [_ [_ [H _]]]]; discriminate]. }
  destruct (HttpQueryInfo os request _ _) as [status|]; cbn [fst].
  - rewrite wcscmp_eqb. split.
    + intro E. repeat split; auto. exists status. auto.
    + intros [_ [_ [_ [_ [st [E1 E2]]]]]]. injection E1 as ->. exact E2.
  - split; [discriminate|].
    intros [_ [_ [_ [_ [st [E _]]]]]]. discriminate.
Qed.

(** X3. [SendRequest] returns [true] exactly when the field names are
    accepted, the URL cracks with scheme https or http, the client, the
    connection and the request open, the send of the generated body succeeds
    and the status query answers 200. *)
Theorem SendRequest_true_iff os url p f n seed :
  result (SendRequest os url p f n) seed = true <->
  CheckParameters p = true /\
  exists c,
    InternetCrackUrl os url = Some c /\
    (c_str (lpszScheme c) = L "https" \/ c_str (lpszScheme c) = L "http") /\
    let flags := if wcscmp (lpszScheme c) (L "https") =? 0
                 then INTERNET_FLAG_SECURE else 0 in
    let internet := InternetOpen os kUserAgent INTERNET_OPEN_TYPE_PRECONFIG in
    let connection := InternetConnect os internet (lpszHostName c) (nPort c)
                        INTERNET_SERVICE_HTTP in
    let request := HttpOpenRequest os connection (L "POST") (lpszUrlPath c)
                     flags in
    let boundary := result (GenerateMultipartBoundary os) seed in
    let body := snd (result (GenerateRequestBody os p f n boundary []) 0) in
    internet <> NULL /\ connection <> NULL /\ request <> NULL /\
    HttpSendRequest os request body = true /\
    exists status,
      HttpQueryInfo os request HTTP_QUERY_STATUS_CODE http_status_size
        = Some status /\ c_str status = L "200".
Proof.
  unfold result at 1. apply SendRequest_cases; cbv zeta.
  - intros Hp. cbn [fst]. split; [discriminate|]. intros [H _]. congruence.
  - intros _ Hu. cbn [fst]. split; [discriminate|].
    intros [_ [c [Hc [Hs _]]]].
    destruct Hu as [Hu|[c' [Hc' [N1 N2]]]]; [congruence|].
    rewrite Hc in Hc'. injection Hc' as <-. destruct Hs; contradiction.
  - intros c Hp Hc Hs.
    pose proof (SendRequest_open_true os c
                  (wcscmp (lpszScheme c) (L "https") =? 0) p f n
                  (logged {| trace := []; holdrand := seed |}
                     [CallInternetCrackUrl url])) as T.
    cbv zeta in T. cbn [holdrand logged] in T. rewrite T. split.
    + intro H. split; [exact Hp|]. exists c.
      split; [exact Hc|]. split; [tauto | exact H].
    + intros [_ [c' [Hc' [_ H]]]]. rewrite Hc in Hc'. injection Hc' as <-.
      exact H.
Qed.

Lemma SendRequest_true_iff_witness :
  result (SendRequest Desk.os Desk.url [(L "foo", L "bar")] Desk.dump
            (L "upload_file_minidump")) 1 = true /\
  result (SendRequest (Desk.platform Desk.files true (Some (L "404")))
            Desk.url [(L "foo", L "bar")] Desk.dump
            (L "upload_file_minidump")) 1 = false.
Proof.
  split.
  - apply (proj2 (SendRequest_true_iff Desk.os Desk.url [(L "foo", L "bar")]
                    Desk.dump (L "upload_file_minidump") 1)).
    split; [reflexivity|].
    exists {| lpszScheme := L "https"; lpszHostName := L "crash.example.org";
              nPort := 443; lpszUrlPath := L "/submit" |}.
    split; [reflexivity|]. split; [left; reflexivity|]. cbv zeta.
    repeat split; try (vm_compute; discriminate).
    exists (L "200"). split; reflexivity.
  - apply Bool.not_true_iff_false. intro H.
    apply (proj1 (SendRequest_true_iff _ _ _ _ _ _)) in H.
    destruct H as [_ [c [_ [_ H]]]]. cbv zeta in H.
    destruct H as [_ [_ [_ [_ [status [E1 E2]]]]]].
    cbn in E1. injection E1 as <-. vm_compute in E2. discriminate E2.
Defined.

(** ** One attempt *)

Lemma SendRequest_open_send_failed os c secure p f n w req body :
  (forall r b, ~ In (CallHttpSendRequest r b) (trace w)) ->
  (forall r, ~ In (CallHttpQueryInfo r) (trace w)) ->
  In (CallHttpSendRequest req body)
     (trace (snd (SendRequest_open os c secure p f n w))) ->
  HttpSendRequest os req body = false ->
  fst (SendRequest_open os c secure p f n w) = false /\
  forall r, ~ In (CallHttpQueryInfo r)
                 (trace (snd (SendRequest_open os c secure p f n w))).
Proof.
  intros Hw Hq Hin Hsent. rewrite SendRequest_open_run in *. cbv zeta in *.
  assert (Hno : forall es,
             In (CallHttpSendRequest req body) (trace w ++ es) ->
             In (CallHttpSendRequest req body) es).
  { intros es H. apply in_app_or in H. destruct H; [|assumption].
    now apply Hw in H. }
  destruct (_ =? NULL); [apply Hno in Hin; in_trace Hin|].
  destruct (_ =? NULL); [apply Hno in Hin; in_trace Hin|].
  destruct (_ =? NULL); [apply Hno in Hin; in_trace Hin|].
  destruct (rand os (holdrand w)) as [r0 s0].
  destruct (rand os s0) as [r1 s1].
  match type of Hin with
  | context [HttpSendRequest os ?r ?b] =>
      assert (E : req = r /\ body = b)
  end.
  { destruct (negb _); [|destruct (HttpQueryInfo os _ _ _)];
      apply Hno in Hin; in_trace Hin;
      apply CallHttpSendRequest_inj in Hin; destruct Hin; auto. }
  destruct E as [<- <-]. rewrite Hsent in *. cbn [negb fst snd trace] in *.
  split; [reflexivity|].
  intros r H. apply in_app_or in H. destruct H as [H|H]; [now apply Hq in H|].
  in_trace H.
Qed.

(** X4. When [HttpSendRequest] fails, [SendRequest] returns [false] and the
    status is never queried. *)
Theorem SendRequest_send_failure os url p f n seed req body :
  In (CallHttpSendRequest req body) (calls (SendRequest os url p f n) seed) ->
  HttpSendRequest os req body = false ->
  result (SendRequest os url p f n) seed = false /\
  forall r, ~ In (CallHttpQueryInfo r) (calls (SendRequest os url p f n) seed).
Proof.
  unfold calls, result. apply SendRequest_cases; cbv zeta.
  - intros _ H. in_trace H.
  - intros _ _ H. in_trace H.
  - intros c _ _ _. apply SendRequest_open_send_failed.
    + intros r b H. in_trace H.
    + intros r H. in_trace H.
Qed.

Lemma SendRequest_send_failure_witness :
  let refusing := with_HttpSendRequest Desk.os (fun _ _ => false) in
  result (SendRequest refusing Desk.url [] (L "C:\dumps\missing.dmp")
            (L "upload_file_minidump")) 1 = false /\
  forall r,
    ~ In (CallHttpQueryInfo r)
         (calls (SendRequest refusing Desk.url [] (L "C:\dumps\missing.dmp")
                   (L "upload_file_minidump")) 1).
Proof.
  intros refusing.
  apply (SendRequest_send_failure refusing Desk.url []
           (L "C:\dumps\missing.dmp") (L "upload_file_minidump") 1 3 []).
  - vm_compute. do 8 right. left. reflexivity.
  - reflexivity.
Defined.

Lemma SendRequest_open_once os c secure p f n w (sel : Event -> bool) :
  sel = is_send \/ sel = is_query \/ sel = is_open_file ->
  (List.length (filter sel (trace (snd (SendRequest_open os c secure p f n w))))
   <= List.length (filter sel (trace w)) + 1)%nat.
Proof.
  intro Hsel. rewrite SendRequest_open_run. cbv zeta.
  destruct (_ =? NULL);
    [|destruct (_ =? NULL);
      [|destruct (_ =? NULL);
        [|destruct (rand os (holdrand w)) as [r0 s0];
          destruct (rand os s0) as [r1 s1];
          destruct (negb _); [|destruct (HttpQueryInfo os _ _ _)]]]];
    cbn [snd trace logged]; rewrite filter_app, length_app;
    destruct Hsel as [ -> | [ -> | -> ] ];
    cbn [filter app closes map is_send is_query is_open_file List.length];
    lia.
Qed.

(** X5. There is no retry: in one call of [SendRequest] the file is opened
    at most once, the request is sent at most once and the status is queried
    at most once. *)
Theorem SendRequest_single_attempt os url p f n seed :
  let t := calls (SendRequest os url p f n) seed in
  (List.length (filter is_open_file t) <= 1)%nat /\
  (List.length (filter is_send t) <= 1)%nat /\
  (List.length (filter is_query t) <= 1)%nat.
Proof.
  cbv zeta. unfold calls. apply SendRequest_cases; cbv zeta.
  - intros _. cbn. lia.
  - intros _ _. cbn. lia.
  - intros c _ _ _.
    set (w1 := logged _ _).
    pose proof (SendRequest_open_once os c
                  (wcscmp (lpszScheme c) (L "https") =? 0) p f n w1) as H.
    pose proof (H is_open_file ltac:(auto)) as H1.
    pose proof (H is_send ltac:(auto)) as H2.
    pose proof (H is_query ltac:(auto)) as H3.
    cbn [w1 trace logged app filter is_open_file is_send is_query List.length]
      in H1, H2, H3.
    lia.
Qed.

(** ** The boundary in the header and in the body *)

Lemma boundary_text r0 r1 :
  c_str (swprintf_s kBoundaryLength kBoundaryPrefix r0 r1) =
  repeat 45 27 ++ fmt_08X r0 ++ fmt_08X r1.
Proof.
  destruct (fmt_08X_spec r0) as [L0 [U0 _]].
  destruct (fmt_08X_spec r1) as [L1 [U1 _]].
  unfold swprintf_s. cbv zeta.
  change (c_str kBoundaryPrefix) with (repeat 45 27).
  rewrite !length_app, repeat_length, L0, L1.
  change (Z.of_nat (27 + (8 + 8)) <? kBoundaryLength) with true. cbv iota.
  apply c_str_no_nul. rewrite !Forall_app. repeat split.
  - apply Forall_forall. intros c Hc. apply repeat_spec in Hc. lia.
  - eapply Forall_impl; [|exact U0]. intros c [H|H]; cbv beta; lia.
  - eapply Forall_impl; [|exact U1]. intros c [H|H]; cbv beta; lia.
Qed.

Lemma boundary_no_nul os seed :
  Forall (fun c => c <> 0) (result (GenerateMultipartBoundary os) seed).
Proof.
  unfold result. rewrite GenerateMultipartBoundary_run. cbn [holdrand].
  destruct (rand os seed) as [r0 s0]. destruct (rand os s0) as [r1 s1].
  cbn [fst]. rewrite boundary_text.
  destruct (fmt_08X_spec r0) as [_ [U0 _]].
  destruct (fmt_08X_spec r1) as [_ [U1 _]].
  rewrite !Forall_app. repeat split.
  - apply Forall_forall. intros c Hc. apply repeat_spec in Hc. lia.
  - eapply Forall_impl; [|exact U0]. intros c [H|H]; cbv beta; lia.
  - eapply Forall_impl; [|exact U1]. intros c [H|H]; cbv beta; lia.
Qed.

Lemma GenerateRequestHeader_c_str os seed :
  c_str (GenerateRequestHeader (result (GenerateMultipartBoundary os) seed)) =
  L "Content-Type: multipart/form-data; boundary=" ++
  result (GenerateMultipartBoundary os) seed.
Proof.
  unfold GenerateRequestHeader. cbv zeta. apply c_str_no_nul.
  apply Forall_app. split; [|apply boundary_no_nul].
  vm_compute. repeat constructor; discriminate.
Qed.

Lemma SendRequest_open_same_boundary os c secure p f n w req hdr :
  (forall r h, ~ In (CallHttpAddRequestHeaders r h) (trace w)) ->
  In (CallHttpAddRequestHeaders req hdr)
     (trace (snd (SendRequest_open os c secure p f n w))) ->
  let boundary := result (GenerateMultipartBoundary os) (holdrand w) in
  hdr = L "Content-Type: multipart/form-data; boundary=" ++ boundary /\
  In (CallHttpSendRequest req
        (snd (result (GenerateRequestBody os p f n boundary []) 0)))
     (trace (snd (SendRequest_open os c secure p f n w))).
Proof.
  intros Hw Hin. cbv zeta.
  rewrite <- GenerateRequestHeader_c_str.
  rewrite <- GenerateMultipartBoundary_value.
  rewrite SendRequest_open_run in *. cbv zeta in *.
  rewrite GenerateMultipartBoundary_run.
  assert (Hno : forall es,
             In (CallHttpAddRequestHeaders req hdr) (trace w ++ es) ->
             In (CallHttpAddRequestHeaders req hdr) es).
  { intros es H. apply in_app_or in H. destruct H; [|assumption].
    now apply Hw in H. }
  destruct (_ =? NULL); [apply Hno in Hin; in_trace Hin|].
  destruct (_ =? NULL); [apply Hno in Hin; in_trace Hin|].
  destruct (_ =? NULL); [apply Hno in Hin; in_trace Hin|].
  destruct (rand os (holdrand w)) as [r0 s0].
  destruct (rand os s0) as [r1 s1]. cbn [fst].
  change (result (GenerateRequestBody os p f n ?b []) 0)
    with (fst (GenerateRequestBody os p f n b [] fresh)).
  destruct (negb _); [|destruct (HttpQueryInfo os _ _ _)];
    apply Hno in Hin; in_trace Hin;
    apply CallHttpAddRequestHeaders_inj in Hin; destruct Hin as [<- <-];
    (split; [reflexivity|]);
    cbn [snd trace]; apply in_or_app; right;
    cbn [app In]; auto 10.
Qed.

(** X6. The boundary announced in the Content-Type header is the one the
    body is built with: the header offered is the fixed text followed by the
    generated boundary, and the body then sent on the same request is the
    one [GenerateRequestBody] makes for that boundary. *)
Theorem SendRequest_same_boundary os url p f n seed req hdr :
  In (CallHttpAddRequestHeaders req hdr)
     (calls (SendRequest os url p f n) seed) ->
  let boundary := result (GenerateMultipartBoundary os) seed in
  hdr = L "Content-Type: multipart/form-data; boundary=" ++ boundary /\
  In (CallHttpSendRequest req
        (snd (result (GenerateRequestBody os p f n boundary []) 0)))
     (calls (SendRequest os url p f n) seed).
Proof.
  unfold calls. apply SendRequest_cases; cbv zeta.
  - intros _ H. in_trace H.
  - intros _ _ H. in_trace H.
  - intros c _ _ _ H.
    apply (SendRequest_open_same_boundary os c
             (wcscmp (lpszScheme c) (L "https") =? 0) p f n
             (logged {| trace := []; holdrand := seed |}
                [CallInternetCrackUrl url]) req hdr); [|exact H].
    intros r h H'. in_trace H'.
Qed.

Lemma SendRequest_same_boundary_witness :
  let p := [(L "foo", L "bar")] in
  let n := L "upload_file_minidump" in
  let boundary := result (GenerateMultipartBoundary Desk.os) 1 in
  In (CallHttpSendRequest 3
        (snd (result (GenerateRequestBody Desk.os p Desk.dump n boundary [])
                0)))
     (calls (SendRequest Desk.os Desk.url p Desk.dump n) 1).
Proof.
  intros p n boundary.
  apply (SendRequest_same_boundary Desk.os Desk.url p Desk.dump n 1 3
           (L "Content-Type: multipart/form-data; boundary=" ++ boundary)).
  vm_compute. do 6 right. left. reflexivity.
Defined.

(** ** The body, in general *)

(** X7. [GenerateRequestBody] returns [true] exactly when the file has
    content and the boundary, the path and the part name transcode to
    non-empty strings, whatever the parameters are; the body is then one
    form-data part per parameter, in order, followed by the file part and the
    closing delimiter, and what the string held before is gone. *)
Theorem GenerateRequestBody_layout os p f n b old w :
  let r := fst (GenerateRequestBody os p f n b old w) in
  let contents := result (GetFileContents os f) 0 in
  let B := WideToUTF8 os b in
  (fst r = true <->
   contents <> [] /\ B <> [] /\
   WideToUTF8 os f <> [] /\ WideToUTF8 os n <> []) /\
  (fst r = true ->
   snd r = flat_map (form_data_part os B) p ++
           file_part B (WideToUTF8 os n) (WideToUTF8 os f) contents).
Proof.
  cbv zeta. rewrite GenerateRequestBody_value. cbv zeta.
  destruct (empty (result (GetFileContents os f) 0)) eqn:E1;
    [apply empty_true in E1 | apply empty_false in E1].
  { cbn [fst]. split; [|discriminate].
    split; [discriminate | intros [H _]; contradiction]. }
  destruct (empty (WideToUTF8 os b)) eqn:E2;
    [apply empty_true in E2 | apply empty_false in E2].
  { cbn [fst]. split; [|discriminate].
    split; [discriminate | intros [_ [H _]]; contradiction]. }
  destruct (empty (WideToUTF8 os f)) eqn:E3;
    [apply empty_true in E3 | apply empty_false in E3].
  { cbn [fst]. split; [|discriminate].
    split; [discriminate | intros [_ [_ [H _]]]; contradiction]. }
  destruct (empty (WideToUTF8 os n)) eqn:E4;
    [apply empty_true in E4 | apply empty_false in E4].
  { cbn [fst]. split; [|discriminate].
    split; [discriminate | intros [_ [_ [_ H]]]; contradiction]. }
  cbn [fst snd]. split; [|reflexivity]. split; auto.
Qed.

Lemma GenerateRequestBody_layout_witness :
  snd (fst (GenerateRequestBody Desk.os
              [(L "a", L "1"); (L "b", L "2")] Desk.dump (L "file") (L "B")
              (s "stale") fresh)) =
  form_data_part Desk.os (s "B") (L "a", L "1") ++
  form_data_part Desk.os (s "B") (L "b", L "2") ++
  file_part (s "B") (s "file") (s "C:\dumps\a.dmp") (s "DATA").
Proof.
  apply (proj2 (GenerateRequestBody_layout Desk.os
                  [(L "a", L "1"); (L "b", L "2")] Desk.dump (L "file")
                  (L "B") (s "stale") fresh)).
  reflexivity.
Defined.

Lemma SendRequest_open_body os c secure p f n w req body :
  (forall r b, ~ In (CallHttpSendRequest r b) (trace w)) ->
  In (CallHttpSendRequest req body)
     (trace (snd (SendRequest_open os c secure p f n w))) ->
  body = snd (result (GenerateRequestBody os p f n
                        (result (GenerateMultipartBoundary os) (holdrand w))
                        []) 0).
Proof.
  intros Hw Hin. rewrite <- GenerateMultipartBoundary_value.
  rewrite SendRequest_open_run in *. cbv zeta in *.
  rewrite GenerateMultipartBoundary_run.
  assert (Hno : forall es,
             In (CallHttpSendRequest req body) (trace w ++ es) ->
             In (CallHttpSendRequest req body) es).
  { intros es H. apply in_app_or in H. destruct H; [|assumption].
    now apply Hw in H. }
  destruct (_ =? NULL); [apply Hno in Hin; in_trace Hin|].
  destruct (_ =? NULL); [apply Hno in Hin; in_trace Hin|].
  destruct (_ =? NULL); [apply Hno in Hin; in_trace Hin|].
  destruct (rand os (holdrand w)) as [r0 s0].
  destruct (rand os s0) as [r1 s1]. cbn [fst].
  destruct (negb _); [|destruct (HttpQueryInfo os _ _ _)];
    apply Hno in Hin; in_trace Hin;
    apply CallHttpSendRequest_inj in Hin; destruct Hin as [_ <-];
    reflexivity.
Qed.

(** X8. What [SendRequest] sends is whatever [GenerateRequestBody] left in
    the request body, its returned flag unread: when the file is missing or
    empty the body sent is empty, and when the file has content but the part
    name transcodes to nothing the body sent is the parameter parts alone. *)
Theorem SendRequest_body_sent os url p f n seed req body :
  In (CallHttpSendRequest req body) (calls (SendRequest os url p f n) seed) ->
  let boundary := result (GenerateMultipartBoundary os) seed in
  let B := WideToUTF8 os boundary in
  body = snd (result (GenerateRequestBody os p f n boundary []) 0) /\
  (result (GetFileContents os f) 0 = [] -> body = []) /\
  (result (GetFileContents os f) 0 <> [] -> B <> [] ->
   WideToUTF8 os n = [] -> body = flat_map (form_data_part os B) p).
Proof.
  intro Hin. cbv zeta.
  assert (E : body = snd (result (GenerateRequestBody os p f n
                (result (GenerateMultipartBoundary os) seed) []) 0)).
  { revert Hin. unfold calls. apply SendRequest_cases; cbv zeta.
    - intros _ H. in_trace H.
    - intros _ _ H. in_trace H.
    - intros c _ _ _ H.
      apply (SendRequest_open_body os c
               (wcscmp (lpszScheme c) (L "https") =? 0) p f n
               (logged {| trace := []; holdrand := seed |}
                  [CallInternetCrackUrl url]) req body); [|exact H].
      intros r b H'. in_trace H'. }
  split; [exact E|]. rewrite E.
  change (result (GenerateRequestBody os p f n ?b []) 0)
    with (fst (GenerateRequestBody os p f n b [] fresh)).
  rewrite GenerateRequestBody_value. cbv zeta. split.
  - intro H. apply empty_true in H. now rewrite H.
  - intros Hc HB Hn. apply empty_false in Hc, HB. apply empty_true in Hn.
    rewrite Hc, HB, Hn. now destruct (empty (WideToUTF8 os f)).
Qed.

Lemma SendRequest_body_sent_witness :
  let p := [(L "foo", L "bar")] in
  let empty_file := L "C:\dumps\empty.dmp" in
  let n := L "upload_file_minidump" in
  [] = snd (result (GenerateRequestBody Desk.os p empty_file n
                      (result (GenerateMultipartBoundary Desk.os) 1) []) 0).
Proof.
  intros p empty_file n.
  refine (proj1 (SendRequest_body_sent Desk.os Desk.url p empty_file n 1 3 []
                   _)).
  vm_compute. do 8 right. left. reflexivity.
Defined.

(** ** Transcoding *)

Lemma is_nul_true b : is_nul b = true <-> b = x00.
Proof. destruct b; split; intro H; try reflexivity; discriminate H. Qed.

Lemma string_of_buf_no_nul buf : Forall (fun b => b <> x00) (string_of_buf buf).
Proof.
  induction buf as [|b buf IH]; cbn [string_of_buf]; [constructor|].
  destruct (is_nul b) eqn:E; constructor; [|exact IH].
  intro H. apply is_nul_true in H. congruence.
Qed.

Lemma c_str_app_nul w rest : c_str (w ++ 0 :: rest) = c_str w.
Proof.
  induction w as [|c w IH]; cbn [app c_str]; [reflexivity|].
  destruct (c =? 0); [reflexivity | now rewrite IH].
Qed.

(** X9. The string [WideToUTF8] returns never holds a NUL byte, and the
    empty wide string gives the empty string without the encoder being
    consulted. *)
Theorem WideToUTF8_no_nul os w :
  Forall (fun b => b <> x00) (WideToUTF8 os w) /\
  (w = [] -> WideToUTF8 os w = []).
Proof.
  split.
  - unfold WideToUTF8. cbv zeta.
    destruct (Z.of_nat (List.length w) =? 0); [constructor|].
    destruct (Z.of_nat (List.length (WideCharToMultiByte os (c_str w))) =? 0);
      [constructor | apply string_of_buf_no_nul].
  - intros ->. reflexivity.
Qed.

Lemma WideToUTF8_no_nul_witness :
  WideToUTF8 Desk.os [] = [].
Proof. apply (proj2 (WideToUTF8_no_nul Desk.os [])). reflexivity. Defined.

(** X10. A wide string is transcoded up to its first NUL only: what follows
    an embedded NUL is dropped without an error. *)
Theorem WideToUTF8_stops_at_nul os w rest :
  w <> [] -> WideToUTF8 os (w ++ 0 :: rest) = WideToUTF8 os w.
Proof.
  intro Hw. unfold WideToUTF8. cbv zeta. rewrite c_str_app_nul.
  destruct w as [|c w]; [contradiction|]. reflexivity.
Qed.

Lemma WideToUTF8_stops_at_nul_witness :
  WideToUTF8 Desk.os (L "bar" ++ 0 :: L "baz") = s "bar".
Proof.
  refine (eq_trans
            (WideToUTF8_stops_at_nul Desk.os (L "bar") (L "baz") _) _);
    [discriminate | reflexivity].
Defined.

(** ** Validation, composed *)

(** X11. Validation distributes over concatenation: a mapping is accepted
    exactly when each of its two halves is. *)
Theorem CheckParameters_app p q :
  CheckParameters (p ++ q) = CheckParameters p && CheckParameters q.
Proof.
  induction p as [|[k v] p IH]; cbn [app CheckParameters]; [reflexivity|].
  destruct (Z.of_nat (List.length k) =? 0); [reflexivity|].
  destruct (negb (check_chars k)); [reflexivity | exact IH].
Qed.

Lemma good_key_no_nul k : good_key k -> Forall (fun c => c <> 0) k.
Proof.
  intros [_ H]. eapply Forall_impl; [|exact H]. cbv beta. lia.
Qed.

(** X12. A name that passes [CheckParameters] is non-empty, 7-bit and free
    of NUL, so [WideToUTF8] hands it whole to the encoder and returns the
    encoder's output up to its terminator. *)
Theorem CheckParameters_name_whole os p k v :
  CheckParameters p = true -> In (k, v) p ->
  k <> [] /\ Forall (fun c => 32 <= c <= 127) k /\ c_str k = k /\
  WideToUTF8 os k = string_of_buf (WideCharToMultiByte os k).
Proof.
  intros Hp Hin. apply CheckParameters_true in Hp.
  rewrite Forall_forall in Hp. specialize (Hp _ Hin). cbn [fst] in Hp.
  pose proof (c_str_no_nul k (good_key_no_nul k Hp)) as Hc.
  destruct Hp as [Hne Hk].
  split; [exact Hne|]. split.
  { eapply Forall_impl; [|exact Hk]. cbv beta. tauto. }
  split; [exact Hc|].
  unfold WideToUTF8. cbv zeta. rewrite Hc.
  destruct k as [|c k]; [contradiction|].
  change (Z.of_nat (List.length (c :: k)) =? 0) with false. cbv iota.
  destruct (WideCharToMultiByte os (c :: k)); reflexivity.
Qed.

Lemma CheckParameters_name_whole_witness :
  WideToUTF8 Desk.os (L "foo") =
  string_of_buf (WideCharToMultiByte Desk.os (L "foo")).
Proof.
  refine (proj2 (proj2 (proj2 (CheckParameters_name_whole Desk.os
            [(L "foo", L "bar")] (L "foo") (L "bar") eq_refl _)))).
  left; reflexivity.
Defined.

(** ** The boundary, read back *)

Lemma app_same_length {A} (a a' b b' : list A) :
  List.length a = List.length a' -> a ++ b = a' ++ b' -> a = a' /\ b = b'.
Proof.
  revert a'; induction a as [|x a IH]; intros [|x' a'] Hl E;
    try discriminate Hl.
  - auto.
  - cbn [app] in E. injection E as -> E. cbn [List.length] in Hl.
    destruct (IH a' ltac:(lia) E) as [-> ->]. auto.
Qed.

Lemma fmt_08X_as_unsigned a b :
  as_unsigned a = as_unsigned b -> fmt_08X a = fmt_08X b.
Proof. intro E. unfold fmt_08X. now rewrite E. Qed.

(** X13. The boundary text determines the two random numbers and is
    determined by them, as 32-bit unsigned values: two boundaries are equal
    exactly when both numbers agree modulo 2^32. *)
Theorem boundary_injective r0 r1 r0' r1' :
  c_str (swprintf_s kBoundaryLength kBoundaryPrefix r0 r1) =
  c_str (swprintf_s kBoundaryLength kBoundaryPrefix r0' r1') <->
  as_unsigned r0 = as_unsigned r0' /\ as_unsigned r1 = as_unsigned r1'.
Proof.
  rewrite !boundary_text. split.
  - intro E. apply app_inv_head in E.
    destruct (fmt_08X_spec r0) as [L0 [_ V0]].
    destruct (fmt_08X_spec r0') as [L0' [_ V0']].
    destruct (fmt_08X_spec r1) as [_ [_ V1]].
    destruct (fmt_08X_spec r1') as [_ [_ V1']].
    apply app_same_length in E; [|exact (eq_trans L0 (eq_sym L0'))].
    destruct E as [E0 E1]. split.
    + rewrite <- V0, <- V0'. now f_equal.
    + rewrite <- V1, <- V1'. now f_equal.
  - intros [E0 E1].
    now rewrite (fmt_08X_as_unsigned _ _ E0), (fmt_08X_as_unsigned _ _ E1).
Qed.

Lemma hex_rev_short fuel : forall (k : nat) v,
  (1 <= k)%nat -> 0 <= v < 16 ^ Z.of_nat k ->
  (List.length (hex_rev fuel v) <= k)%nat.
Proof.
  induction fuel as [|fuel IH]; intros k v Hk Hv; cbn [hex_rev List.length].
  - lia.
  - destruct (Z.eqb_spec (v / 16) 0) as [Hz|Hz]; cbn [List.length]; [lia|].
    destruct k as [|[|k]]; [lia| |].
    + exfalso. apply Hz. apply Z.div_small. cbn in Hv. lia.
    + assert (List.length (hex_rev fuel (v / 16)) <= S k)%nat; [|lia].
      apply IH; [lia|].
      rewrite (Nat2Z.inj_succ (S k)), Z.pow_succ_r in Hv by lia.
      split; [apply Z.div_pos; lia | apply Z.div_lt_upper_bound; lia].
Qed.

Lemma fmt_08X_leading_zeros r :
  0 <= r < 2 ^ 16 ->
  exists digits, fmt_08X r = [48; 48; 48; 48] ++ digits /\
                 List.length digits = 4%nat.
Proof.
  intro Hr. destruct (fmt_08X_spec r) as [Len _]. revert Len.
  unfold fmt_08X. cbv zeta.
  assert (E : as_unsigned r = r).
  { unfold as_unsigned. apply Z.mod_small. lia. }
  rewrite E.
  pose proof (hex_rev_short 8 4 r ltac:(lia) ltac:(cbn; lia)) as Hs.
  rewrite <- length_rev in Hs. unfold wstring, wchar_t in *.
  set (digits := @rev Z (hex_rev 8 r)) in *. intro Len.
  replace (8 - List.length digits)%nat
    with (4 + (4 - List.length digits))%nat by lia.
  rewrite repeat_app, <- app_assoc.
  eexists. split; [reflexivity|].
  rewrite length_app, repeat_length. lia.
Qed.

(** X14. When [rand] only returns numbers below 2^16, as a runtime whose
    RAND_MAX is 0x7fff does, each of the two groups of eight digits in the
    boundary starts with four zeros: at most sixteen of the boundary's
    characters ever vary, eight in effect. *)
Theorem GenerateMultipartBoundary_leading_zeros os w :
  (forall state, 0 <= fst (rand os state) < 2 ^ 16) ->
  exists d0 d1,
    fst (GenerateMultipartBoundary os w) =
    repeat 45 27 ++ [48; 48; 48; 48] ++ d0 ++ [48; 48; 48; 48] ++ d1 /\
    List.length d0 = 4%nat /\ List.length d1 = 4%nat.
Proof.
  intro Hrand. rewrite GenerateMultipartBoundary_run.
  pose proof (Hrand (holdrand w)) as H0.
  destruct (rand os (holdrand w)) as [r0 s0]. cbn [fst] in H0.
  pose proof (Hrand s0) as H1.
  destruct (rand os s0) as [r1 s1]. cbn [fst] in H1 |- *.
  rewrite boundary_text.
  destruct (fmt_08X_leading_zeros r0 H0) as [d0 [E0 L0]].
  destruct (fmt_08X_leading_zeros r1 H1) as [d1 [E1 L1]].
  exists d0, d1. rewrite E0, E1, <- !app_assoc. auto.
Qed.

Lemma GenerateMultipartBoundary_leading_zeros_witness :
  exists d0 d1,
    fst (GenerateMultipartBoundary Desk.os fresh) =
    repeat 45 27 ++ [48; 48; 48; 48] ++ d0 ++ [48; 48; 48; 48] ++ d1 /\
    List.length d0 = 4%nat /\ List.length d1 = 4%nat.
Proof.
  apply (GenerateMultipartBoundary_leading_zeros Desk.os fresh).
  intro state. cbn [rand Desk.os Desk.platform Desk.msvc_rand fst].
  change 0x7fff with (Z.ones 15). rewrite Z.land_ones by lia.
  pose proof (Z.mod_pos_bound
                (Z.shiftr ((state * 214013 + 2531011) mod 2 ^ 32) 16)
                (2 ^ 15) ltac:(lia)).
  lia.
Defined.

(** ** Early exits *)

(** X15. When the field names are accepted but the URL does not crack, or
    cracks with a scheme other than https and http, the only call made is
    [InternetCrackUrl]: nothing is opened, read or sent. *)
Theorem SendRequest_bad_url os url p f n seed :
  CheckParameters p = true ->
  InternetCrackUrl os url = None \/
  (exists c, InternetCrackUrl os url = Some c /\
             c_str (lpszScheme c) <> L "https" /\
             c_str (lpszScheme c) <> L "http") ->
  result (SendRequest os url p f n) seed = false /\
  calls (SendRequest os url p f n) seed = [CallInternetCrackUrl url].
Proof.
  intros Hp Hu. unfold result, calls. apply SendRequest_cases; cbv zeta.
  - congruence.
  - intros _ _. split; reflexivity.
  - intros c _ Hc Hs. exfalso.
    destruct Hu as [Hu|[c' [Hc' [N1 N2]]]]; [congruence|].
    rewrite Hc in Hc'. injection Hc' as <-. tauto.
Qed.

Lemma SendRequest_bad_url_witness :
  calls (SendRequest Desk.os (L "ftp://crash.example.org/submit")
           [(L "foo", L "bar")] Desk.dump (L "upload_file_minidump")) 1 =
  [CallInternetCrackUrl (L "ftp://crash.example.org/submit")].
Proof.
  refine (proj2 (SendRequest_bad_url Desk.os
                   (L "ftp://crash.example.org/submit") [(L "foo", L "bar")]
                   Desk.dump (L "upload_file_minidump") 1 eq_refl _)).
  right.
  exists {| lpszScheme := L "ftp"; lpszHostName := L "crash.example.org";
            nPort := 80; lpszUrlPath := L "/submit" |}.
  split; [reflexivity|]. split; vm_compute; discriminate.
Defined.

Lemma SendRequest_open_failure os c (secure : bool) p f n w :
  let internet := InternetOpen os kUserAgent INTERNET_OPEN_TYPE_PRECONFIG in
  let connection := InternetConnect os internet (lpszHostName c) (nPort c)
                      INTERNET_SERVICE_HTTP in
  let request := HttpOpenRequest os connection (L "POST") (lpszUrlPath c)
                   (if secure then INTERNET_FLAG_SECURE else 0) in
  internet = NULL \/ connection = NULL \/ request = NULL ->
  exists es,
    SendRequest_open os c secure p f n w = (false, logged w es) /\
    Forall (fun e => is_setup e = true) es.
Proof.
  cbv zeta. intro H. rewrite SendRequest_open_run. cbv zeta.
  name_handles os c secure.
  destruct (Z.eqb_spec internet NULL) as [E1|N1].
  { eexists. split; [reflexivity | repeat constructor]. }
  destruct (Z.eqb_spec connection NULL) as [E2|N2].
  { eexists. split; [reflexivity | repeat constructor]. }
  destruct (Z.eqb_spec request NULL) as [E3|N3].
  { eexists. split; [reflexivity | repeat constructor]. }
  exfalso. tauto.
Qed.

(** X16. When the client, the connection or the request handle fails to
    open, [SendRequest] returns [false] having only cracked the URL, opened
    and closed handles: [rand] is not consumed, no header is offered, the
    file is not read and nothing is sent. *)
Theorem SendRequest_handle_failure os url p f n seed c :
  InternetCrackUrl os url = Some c ->
  let flags := if wcscmp (lpszScheme c) (L "https") =? 0
               then INTERNET_FLAG_SECURE else 0 in
  let internet := InternetOpen os kUserAgent INTERNET_OPEN_TYPE_PRECONFIG in
  let connection := InternetConnect os internet (lpszHostName c) (nPort c)
                      INTERNET_SERVICE_HTTP in
  let request := HttpOpenRequest os connection (L "POST") (lpszUrlPath c)
                   flags in
  internet = NULL \/ connection = NULL \/ request = NULL ->
  result (SendRequest os url p f n) seed = false /\
  Forall (fun e => is_setup e = true) (calls (SendRequest os url p f n) seed) /\
  holdrand (snd (SendRequest os url p f n {| trace := []; holdrand := seed |}))
    = seed.
Proof.
  intros Hc. cbv zeta. intro H. unfold result, calls.
  apply SendRequest_cases; cbv zeta.
  - intros _. repeat split. constructor.
  - intros _ _. repeat split. repeat constructor.
  - intros c' _ Hc' _. rewrite Hc in Hc'. injection Hc' as <-.
    destruct (SendRequest_open_failure os c
                (wcscmp (lpszScheme c) (L "https") =? 0) p f n
                (logged {| trace := []; holdrand := seed |}
                   [CallInternetCrackUrl url]) H) as [es [E Hs]].
    rewrite E. cbn [fst snd trace holdrand logged app].
    repeat split. constructor; [reflexivity | exact Hs].
Qed.

Lemma SendRequest_handle_failure_witness :
  let offline :=
    {| InternetCrackUrl := InternetCrackUrl Desk.os;
       InternetOpen := InternetOpen Desk.os;
       InternetConnect := fun _ _ _ _ => NULL;
       HttpOpenRequest := HttpOpenRequest Desk.os;
       HttpAddRequestHeaders := HttpAddRequestHeaders Desk.os;
       HttpSendRequest := HttpSendRequest Desk.os;
       HttpQueryInfo := HttpQueryInfo Desk.os;
       rand := rand Desk.os;
       WideCharToMultiByte := WideCharToMultiByte Desk.os;
       ifstream_open := ifstream_open Desk.os |} in
  result (SendRequest offline Desk.url [(L "foo", L "bar")] Desk.dump
            (L "upload_file_minidump")) 1 = false.
Proof.
  intro offline.
  refine (proj1 (SendRequest_handle_failure offline Desk.url
                   [(L "foo", L "bar")] Desk.dump (L "upload_file_minidump") 1
                   {| lpszScheme := L "https";
                      lpszHostName := L "crash.example.org";
                      nPort := 443; lpszUrlPath := L "/submit" |}
                   eq_refl _)).
  right; left; reflexivity.
Defined.
